(** * The travel-assistant backend (main.py)

    A shallow embedding of the FastAPI handlers of [main.py]: the
    process-wide state (the [assistant] object and the [user_preferences]
    list), the endpoints, and the response generator of [/query_assistant]
    as a resumable state machine.  The classes and functions that [main.py]
    imports from the [swag] package are not part of the embedded file; what
    the handlers need of them is either taken as a parameter or, for the
    assistant loop, modelled from the specification (module
    [AssistantLoop]). *)

From Stdlib Require Import Floats ZArith.
From stdpp Require Import base strings list.

Local Open Scope string_scope.
Local Open Scope list_scope.

(** ** Python values used by the handlers *)

(** Exceptions a handler or the generator can raise. *)
Inductive Exn :=
  | TypeError            (* subscripting or converting [None] *)
  | IndexError           (* list index out of range *)
  | ConfigurationError.  (* [define_tools] on a list with duplicate names *)

(** Sequencing of computations that may raise. *)
#[global] Instance exn_bind : MBind (sum Exn) := fun A B k m =>
  match m with
  | inl e => inl e
  | inr x => k x
  end.

(** A line feed, as inside a triple-quoted literal. *)
Definition nl : string := String (Ascii.ascii_of_nat 10) EmptyString.

(** [sep.join(l)]. *)
Definition join (sep : string) (l : list string) : string := String.concat sep l.

(** An [Optional[str]] placed in an f-string: [None] prints as its name. *)
Definition format_opt (v : option string) : string :=
  match v with
  | Some s => s
  | None => "None"
  end.

(** Truth value of a [str]: only the empty string is false. *)
Definition str_truthy (s : string) : bool := negb (String.eqb s "").

(** Truth value of a [float]: false exactly for the two zeros; a NaN is true. *)
Definition float_truthy (x : float) : bool := negb (PrimFloat.eqb x 0%float).

(** [x[i]] for an [Optional[list]]. *)
Definition subscript {A} (x : option (list A)) (i : nat) : Exn + A :=
  match x with
  | None => inl TypeError
  | Some l =>
      match l !! i with
      | Some v => inr v
      | None => inl IndexError
      end
  end.

(** [float(v)] for an [Optional[float]]. *)
Definition to_float (v : option float) : Exn + float :=
  match v with
  | Some x => inr x
  | None => inl TypeError
  end.

(** ** Data model *)

(** The tool classes imported from [swag.tools]. *)
Inductive Tool :=
  | SearchInternet
  | ReadWebsite
  | SearchForNearbyPlacesOfType
  | Geocode
  | GetDistanceMatrix
  | OptimizeRoute.

#[global] Instance Tool_eq_dec : EqDecision Tool.
Proof. solve_decision. Defined.

Record SamRequest := {
  image : string;
  clicks : list (list Z)
}.

Record TourGuideRequest := {
  base_image : string;
  masked_image : string;
  location : string;
  lat : float;
  lon : float
}.

Record UserPreference := { preference : string }.

Record Query := {
  query_type : string;  (* 'restaurant' or 'place' or 'trip' *)
  query : string
}.

(** What [geocoder.ip("me")] answers: every attribute is [None] when the
    lookup fails; [latlng] is otherwise the list of the latitude and the
    longitude, each a float or [None]. *)
Module geocoder.

Record ip := {
  city : option string;
  country : option string;
  latlng : option (list (option float))
}.

End geocoder.

(** The dict [{"city": .., "country": .., "latlng": ..}] built by
    [get_location]; its three keys are fixed, so it is a record. *)
Record Location := {
  loc_city : option string;
  loc_country : option string;
  loc_latlng : option (list (option float))
}.

(** The [assistant] object as [main.py] sees it: the attribute it assigns
    ([system]) and the active tool set that [define_tools] installs. *)
Record Assistant := {
  model : string;
  system : string;
  tools : list Tool
}.

(** The module-level mutable state of the process. *)
Record Server := {
  assistant : Assistant;
  user_preferences : list string
}.

(** [assistant.system = s] *)
Definition set_system (s : string) (a : Assistant) : Assistant :=
  {| model := model a; system := s; tools := tools a |}.

(** Modelled from the spec: [Assistant.define_tools] is not in [main.py].
    By 4.1 of the specification it replaces the currently active tool set,
    has no other side effect, and fails with [ConfigurationError] if the
    list contains duplicate names. *)
Definition define_tools (ts : list Tool) (a : Assistant) : Exn + Assistant :=
  if decide (NoDup ts)
  then inr {| model := model a; system := system a; tools := ts |}
  else inl ConfigurationError.

(** ** Responses *)

(** The closure [generate_response]: the variables of [query_assistant] it
    captures. *)
Record GenerateResponse := {
  gr_query : Query;
  gr_preferences_str : string;
  gr_location_str : string
}.

(** The iterable handed to a [StreamingResponse]. *)
Inductive Body :=
  | run_everywhere_tour_guide
      (base_image masked_image location : string) (lat lon : float)
  | generate_response (g : GenerateResponse).

(** [StreamingResponse(content, media_type=..)]; [status_code] is not
    passed by any handler and keeps its default, 200. *)
Record StreamingResponse := {
  content : Body;
  media_type : string;
  status_code : nat
}.

Definition streaming_response (b : Body) (mt : string) : StreamingResponse :=
  {| content := b; media_type := mt; status_code := 200 |}.

(** ** Handlers *)

(** [GET /location] *)
Definition get_location (g : geocoder.ip) : Location :=
  {| loc_city := geocoder.city g;
     loc_country := geocoder.country g;
     loc_latlng := geocoder.latlng g |}.

(** [POST /add_preference]: the new state and the [message] of the reply. *)
Definition add_preference (p : UserPreference) (s : Server) : Server * string :=
  ({| assistant := assistant s;
      user_preferences := (user_preferences s ++ [preference p])%list |},
   "Added preference: " +:+ preference p).

(** [GET /preferences]: the value under the key [preferences]. *)
Definition get_preferences (s : Server) : list string := user_preferences s.

(** [POST /tourguide]; [loc] is what [Depends(get_location)] supplies. *)
Definition query_everywhere_tourguide
    (request : TourGuideRequest) (loc : Location) : Exn + StreamingResponse :=
  let location1 :=
    if negb (str_truthy (location request))
    then format_opt (loc_city loc) +:+ ", " +:+ format_opt (loc_country loc)
    else location request in
  coordinates ←
    (if negb (float_truthy (lat request)) || negb (float_truthy (lon request))
     then
       v0 ← subscript (loc_latlng loc) 0;
       la ← to_float v0;
       v1 ← subscript (loc_latlng loc) 1;
       lo ← to_float v1;
       inr (la, lo)
     else inr (lat request, lon request));
  inr (streaming_response
         (run_everywhere_tour_guide
            (base_image request) (masked_image request) location1
            (fst coordinates) (snd coordinates))
         "text/event-stream").

(** The handler part of [POST /query_assistant] (lines 107-110 and 161):
    [preferences] is what [Depends(get_preferences)] supplies. *)
Definition query_assistant
    (q : Query) (preferences : list string) (g : geocoder.ip) : StreamingResponse :=
  let user_preferences := preferences in
  let preferences_str := join ", " user_preferences in
  let location_str :=
    format_opt (geocoder.city g) +:+ ", " +:+ format_opt (geocoder.country g) in
  streaming_response
    (generate_response
       {| gr_query := q;
          gr_preferences_str := preferences_str;
          gr_location_str := location_str |})
    "text/plain".

(** ** The response generator of [/query_assistant] *)

Definition system_trip : string :=
  join nl
    [ "";
      "            You are an AI trip planner.";
      "            The user wants to travel, given a set of places and waypoints.";
      "";
      "            Your goal is to create a detailed trip plan including:";
      "            1. Route information (directions, distances, estimated travel times).";
      "            2. Suggested activities and attractions along the route and at the destination.";
      "            3. Potential accommodation options at the destination.";
      "            4. Any relevant warnings or advisories for the trip (e.g., road closures, weather).";
      "";
      "            Use tools to gather the necessary information. Provide the plan.";
      "            " ].

(** [system_template.format(query_type=.., location=.., preferences_str=..,
    additional_info=.., action=..)] *)
Definition system_template
    (query_type location preferences_str additional_info action : string) : string :=
  join nl
    [ "";
      "            You are an AI assistant helping a user find " +:+ query_type
        +:+ "s in " +:+ location +:+ ".";
      "            The user is looking for a " +:+ query_type +:+ " to " +:+ action +:+ ".";
      "            The user's preferences are: " +:+ preferences_str +:+ ".";
      "            Your goal is to build a report of the top 5 " +:+ query_type
        +:+ "s that might suit the user's preferences,";
      "            including " +:+ additional_info +:+ "." ].

Definition trip_tools : list Tool :=
  [SearchInternet; ReadWebsite; Geocode; GetDistanceMatrix; OptimizeRoute].

Definition place_tools : list Tool :=
  [SearchInternet; ReadWebsite; SearchForNearbyPlacesOfType].

(** The [if]/[elif]/[else] of lines 113-155: either the system prompt and
    the tool list the branch installs, or the message of the [else] branch. *)
Inductive Setup :=
  | Configure (system : string) (tools : list Tool)
  | Reject (message : string).

Definition generate_response_setup (g : GenerateResponse) : Setup :=
  let qt := query_type (gr_query g) in
  if String.eqb qt "trip" then
    Configure system_trip trip_tools
  else if String.eqb qt "restaurant" || String.eqb qt "place" then
    let additional_info :=
      if String.eqb qt "restaurant"
      then "recommended menu options, expected price to eat there & overall restaurant rating"
      else "recommended activities, expected costs & overall ratings" in
    let action := if String.eqb qt "restaurant" then "eat" else "visit" in
    Configure
      (system_template qt (gr_location_str g) (gr_preferences_str g) additional_info action)
      place_tools
  else
    Reject ("Invalid query type: " +:+ qt
            +:+ ". Supported types are 'restaurant', 'place', and 'trip'.").

(** What one resumption of the generator does, in program order. *)
Inductive Effect :=
  | SetSystem (s : string)        (* assistant.system = s *)
  | DefineTools (ts : list Tool)  (* assistant.define_tools(ts) *)
  | CallAssistant (q : string)    (* assistant(q): the assistant loop is started *)
  | Anext                         (* one chunk is awaited from the assistant *)
  | Yield (chunk : string).       (* a chunk is handed to the response *)

(** Only the relaying of chunks: no write to the assistant, no new loop. *)
Definition relays_only (es : list Effect) : Prop :=
  Forall (fun e => e = Anext \/ exists chunk, e = Yield chunk) es.

(** How a resumption ends. *)
Inductive Outcome :=
  | Yielded (chunk : string)
  | Stopped                 (* StopAsyncIteration: the body is complete *)
  | Raised (e : Exn).

Section Generator.

(** [Assistant.__call__] is not in [main.py]: the async iterator it returns
    is a parameter, together with the effect that creating and advancing it
    has on the shared [assistant] object. *)
Context {AIter : Type}.
Variable assistant_call : Assistant -> string -> AIter * Assistant.
Variable assistant_anext : AIter -> Assistant -> option (string * AIter) * Assistant.

(** Where the generator is suspended. *)
Inductive GenState :=
  | Created                (* not entered yet *)
  | Rejected               (* at the [yield] of line 154 *)
  | Relaying (it : AIter)  (* at the [yield] of line 159 *)
  | Closed.

Record Resumed := {
  outcome : Outcome;
  state : GenState;
  shared : Assistant;   (* the [assistant] object afterwards *)
  effects : list Effect
}.

(** One turn of [async for response_chunk in it: yield response_chunk]. *)
Definition relay (it : AIter) (a : Assistant) (done : list Effect) : Resumed :=
  match assistant_anext it a with
  | (Some (chunk, it'), a') =>
      {| outcome := Yielded chunk; state := Relaying it'; shared := a';
         effects := (done ++ [Anext; Yield chunk])%list |}
  | (None, a') =>
      {| outcome := Stopped; state := Closed; shared := a';
         effects := (done ++ [Anext])%list |}
  end.

(** [__anext__] on the generator object. *)
Definition gen_next (g : GenerateResponse) (st : GenState) (a : Assistant) : Resumed :=
  match st with
  | Created =>
      match generate_response_setup g with
      | Configure sys ts =>
          match define_tools ts (set_system sys a) with
          | inr a1 =>
              let '(it, a2) := assistant_call a1 (query (gr_query g)) in
              relay it a2
                [SetSystem sys; DefineTools ts; CallAssistant (query (gr_query g))]
          | inl e =>
              {| outcome := Raised e; state := Closed; shared := set_system sys a;
                 effects := [SetSystem sys; DefineTools ts] |}
          end
      | Reject message =>
          {| outcome := Yielded message; state := Rejected; shared := a;
             effects := [Yield message] |}
      end
  | Rejected =>
      {| outcome := Stopped; state := Closed; shared := a; effects := [] |}
  | Relaying it => relay it a []
  | Closed =>
      {| outcome := Stopped; state := Closed; shared := a; effects := [] |}
  end.

(** The chunks a consumer receives when it resumes the generator at most
    [n] times, with every effect performed on the way. *)
Fixpoint gen_take (n : nat) (g : GenerateResponse) (st : GenState) (a : Assistant)
  : list string * list Effect * GenState * Assistant :=
  match n with
  | O => ([], [], st, a)
  | S n' =>
      let r := gen_next g st a in
      match outcome r with
      | Yielded chunk =>
          let '(cs, es, st', a') := gen_take n' g (state r) (shared r) in
          (chunk :: cs, (effects r ++ es)%list, st', a')
      | _ => ([], effects r, state r, shared r)
      end
  end.

(** The chunks the assistant's own iterator gives when it is advanced at
    most [n] times. *)
Fixpoint assistant_take (n : nat) (it : AIter) (a : Assistant)
  : list string * Assistant :=
  match n with
  | O => ([], a)
  | S n' =>
      match assistant_anext it a with
      | (Some (chunk, it'), a') =>
          let '(cs, a'') := assistant_take n' it' a' in (chunk :: cs, a'')
      | (None, a') => ([], a')
      end
  end.

End Generator.

Arguments GenState : clear implicits.
Arguments Resumed : clear implicits.

(** ** The process: requests against the module-level state *)

(** The part of [generate_response] that runs, without suspension, when the
    response body is first resumed: the writes of lines 126-129 and 146-152
    to the shared [assistant].  The [else] branch writes nothing. *)
Definition begin_stream (g : GenerateResponse) (a : Assistant) : Assistant :=
  match generate_response_setup g with
  | Configure sys ts =>
      match define_tools ts (set_system sys a) with
      | inr a1 => a1
      | inl _ => set_system sys a
      end
  | Reject _ => a
  end.

(** A request together with what the outside world answers while it is
    handled. *)
Inductive Request :=
  | GET_location (g : geocoder.ip)
  | POST_add_preference (p : UserPreference)
  | GET_preferences
  | POST_tourguide (request : TourGuideRequest) (g : geocoder.ip)
  | POST_query_assistant (q : Query) (g : geocoder.ip)
  | POST_sam (request : SamRequest).

Inductive Response :=
  | LocationJson (l : Location)
  | MessageJson (message : string)
  | PreferencesJson (preferences : list string)
  | Streaming (r : StreamingResponse)
  | Png (request : SamRequest)   (* the mask of [predict_mask], media type image/png *)
  | InternalServerError (e : Exn).

Definition handle (r : Request) (s : Server) : Server * Response :=
  match r with
  | GET_location g => (s, LocationJson (get_location g))
  | POST_add_preference p =>
      let '(s', message) := add_preference p s in (s', MessageJson message)
  | GET_preferences => (s, PreferencesJson (get_preferences s))
  | POST_tourguide request g =>
      match query_everywhere_tourguide request (get_location g) with
      | inr r => (s, Streaming r)
      | inl e => (s, InternalServerError e)
      end
  | POST_query_assistant q g =>
      (s, Streaming (query_assistant q (get_preferences s) g))
  | POST_sam request => (s, Png request)
  end.

(** What happens in the process, in the order the event loop runs it: a
    handler runs to its [return], or the body of a [/query_assistant]
    response is resumed for the first time. *)
Inductive Event :=
  | Handle (r : Request)
  | Begin (g : GenerateResponse).

Definition occur (s : Server) (e : Event) : Server :=
  match e with
  | Handle r => fst (handle r s)
  | Begin g =>
      {| assistant := begin_stream g (assistant s);
         user_preferences := user_preferences s |}
  end.

Definition run (es : list Event) (s : Server) : Server := foldl occur s es.

(** The state after import: [assistant = Assistant(client=.., model=..)] and
    [user_preferences = []]; what the constructor leaves in [system] and in
    the tool set is not visible from [main.py]. *)
Definition boot (system0 : string) (tools0 : list Tool) : Server :=
  {| assistant :=
       {| model := "claude-3-5-haiku-latest"; system := system0; tools := tools0 |};
     user_preferences := [] |}.

(** The preferences added by a run of events, oldest first. *)
Fixpoint added (es : list Event) : list string :=
  match es with
  | [] => []
  | Handle (POST_add_preference p) :: es' => preference p :: added es'
  | _ :: es' => added es'
  end.

(** The supported values of [query_type]. *)
Definition supported (qt : string) : bool :=
  String.eqb qt "trip" || String.eqb qt "restaurant" || String.eqb qt "place".

(** ** The assistant loop *)

(** Modelled from the spec: [swag.assistant.Assistant], the class behind
    [assistant(query.query)], is not in [main.py].  The module follows
    parts 3, 4.2, 4.3 and 4.4 of the specification: the messages and
    events, the tool executor, and the loop as a state machine with an
    explicit phase, one transition per step. *)
Module AssistantLoop.

Inductive Role := User | Model | ToolRole.

Inductive ToolError := UnknownToolError | ToolArgumentError | ToolExecutionError.

Inductive LoopError := LoopLimitExceeded | ModelStreamError.

Record ToolCallRequest := {
  toolName : string;
  arguments : string
}.

(** [content] or [error], tagged with the tool it answers. *)
Record ToolCallResult := {
  resultTool : string;
  result : string + ToolError
}.

Inductive Content :=
  | Text (s : string)
  | Calls (cs : list ToolCallRequest)
  | Result (r : ToolCallResult).

Record Message := {
  role : Role;
  content : Content
}.

Record ToolDefinition := {
  name : string;
  description : string;
  parameterSchema : string -> bool;   (* do the arguments match the schema *)
  execute : string -> option string   (* [None]: the execution failed *)
}.

Record Conversation := {
  systemPrompt : string;
  activeTools : list ToolDefinition;
  messages : list Message
}.

Inductive StreamEvent :=
  | TextFragment (s : string)
  | ToolStarted (tool : string)
  | ToolCompleted (tool : string)
  | Completed
  | Failure (e : LoopError).

(** One fragment of the model's streamed response. *)
Inductive Fragment :=
  | FText (s : string)
  | FToolCall (c : ToolCallRequest).

(** The streamed response: its fragments and whether it ended with the
    completion marker ([false]: with the error marker). *)
Record ModelResponse := {
  fragments : list Fragment;
  completed : bool
}.

Inductive Phase :=
  | AwaitingModel
  | ModelStreaming (pending : list Fragment) (ok : bool)
  | EmittingText (pending : list Fragment) (ok : bool)
  | ExecutingTools (calls : list ToolCallRequest)
  | Done
  | Failed (e : LoopError).

Record Loop := {
  phase : Phase;
  conversation : Conversation;
  rounds : nat;               (* requests sent to the model so far *)
  events : list StreamEvent   (* emitted so far, oldest first *)
}.

(** *** Tool executor (4.2) *)

Definition find_tool (registry : list ToolDefinition) (n : string)
  : option ToolDefinition :=
  List.find (fun d => String.eqb (name d) n) registry.

Definition executor (registry : list ToolDefinition) (c : ToolCallRequest)
  : ToolCallResult :=
  {| resultTool := toolName c;
     result :=
       match find_tool registry (toolName c) with
       | None => inr UnknownToolError
       | Some d =>
           if parameterSchema d (arguments c) then
             match execute d (arguments c) with
             | Some out => inl out
             | None => inr ToolExecutionError
             end
           else inr ToolArgumentError
       end |}.

(** *** Conversation state (4.4) *)

Definition append (m : Message) (c : Conversation) : Conversation :=
  {| systemPrompt := systemPrompt c;
     activeTools := activeTools c;
     messages := (messages c ++ [m])%list |}.

Definition append_all (ms : list Message) (c : Conversation) : Conversation :=
  foldl (fun c m => append m c) c ms.

Definition tool_message (r : ToolCallResult) : Message :=
  {| role := ToolRole; content := Result r |}.

(** The tool-result messages of a transcript, in transcript order. *)
Definition tool_results (ms : list Message) : list ToolCallResult :=
  omap (fun m => match content m with Result r => Some r | _ => None end) ms.

(** The tool calls among the fragments, in the order the model issued them. *)
Fixpoint tool_calls (fs : list Fragment) : list ToolCallRequest :=
  match fs with
  | [] => []
  | FText _ :: fs' => tool_calls fs'
  | FToolCall c :: fs' => c :: tool_calls fs'
  end.

(** *** Concurrent execution of the calls of one turn *)

(** The executions of one turn complete in some order, given as the list of
    the positions of the requests.  A completion stores its result in the
    slot of its request. *)
Definition complete (registry : list ToolDefinition) (calls : list ToolCallRequest)
    (slots : list (option ToolCallResult)) (i : nat) : list (option ToolCallResult) :=
  match calls !! i with
  | Some c => <[i := Some (executor registry c)]> slots
  | None => slots
  end.

Definition gather (registry : list ToolDefinition) (calls : list ToolCallRequest)
    (order : list nat) : list (option ToolCallResult) :=
  foldl (complete registry calls) (replicate (length calls) None) order.

(** The results that have arrived, read slot by slot. *)
Definition collected (slots : list (option ToolCallResult)) : list ToolCallResult :=
  omap id slots.

Definition completion_events (calls : list ToolCallRequest) (order : list nat)
  : list StreamEvent :=
  omap (fun i => (fun c => ToolCompleted (toolName c)) <$> calls !! i) order.

(** *** The loop (4.3) *)

Section Loop.

Variable max_rounds : nat.
Variable llm : Conversation -> ModelResponse.
(** In which order the executions of a turn complete: by round and by the
    requests of the turn. *)
Variable completion_order : nat -> list ToolCallRequest -> list nat.

Definition emit (p : Phase) (c : Conversation) (es : list StreamEvent) (s : Loop) : Loop :=
  {| phase := p; conversation := c; rounds := rounds s;
     events := (events s ++ es)%list |}.

(** Transitions 2, 3, 5 and 6: the next fragment of the open stream. *)
Definition consume (pending : list Fragment) (ok : bool) (s : Loop) : Loop :=
  match pending with
  | FText t :: rest =>
      emit (EmittingText rest ok)
           (append {| role := Model; content := Text t |} (conversation s))
           [TextFragment t] s
  | FToolCall c :: rest =>
      if ok then
        let calls := c :: tool_calls rest in
        emit (ExecutingTools calls)
             (append {| role := Model; content := Calls calls |} (conversation s))
             [] s
      else emit (Failed ModelStreamError) (conversation s) [Failure ModelStreamError] s
  | [] =>
      if ok then emit Done (conversation s) [Completed] s
      else emit (Failed ModelStreamError) (conversation s) [Failure ModelStreamError] s
  end.

Definition step (s : Loop) : Loop :=
  match phase s with
  | AwaitingModel =>
      if decide (rounds s < max_rounds) then
        let r := llm (conversation s) in
        {| phase := ModelStreaming (fragments r) (completed r);
           conversation := conversation s;
           rounds := S (rounds s);
           events := events s |}
      else emit (Failed LoopLimitExceeded) (conversation s) [Failure LoopLimitExceeded] s
  | ModelStreaming pending ok => consume pending ok s
  | EmittingText pending ok => consume pending ok s
  | ExecutingTools calls =>
      let order := completion_order (rounds s) calls in
      let results := collected (gather (activeTools (conversation s)) calls order) in
      emit AwaitingModel
           (append_all (tool_message <$> results) (conversation s))
           (((fun c => ToolStarted (toolName c)) <$> calls)
              ++ completion_events calls order) s
  | Done => s
  | Failed _ => s
  end.

(** The loop for one query: a fresh conversation holding the user's
    message. *)
Definition start (prompt : string) (registry : list ToolDefinition) (q : string) : Loop :=
  {| phase := AwaitingModel;
     conversation :=
       {| systemPrompt := prompt; activeTools := registry;
          messages := [ {| role := User; content := Text q |} ] |};
     rounds := 0;
     events := [] |}.

Definition terminal (s : Loop) : bool :=
  match phase s with
  | Done | Failed _ => true
  | _ => false
  end.

(** [n] transitions in a row. *)
Fixpoint steps (n : nat) (s : Loop) : Loop :=
  match n with
  | O => s
  | S n' => steps n' (step s)
  end.

End Loop.

(** A model that requests another tool call in every round: each response
    completes normally and contains at least one tool call. *)
Definition keeps_calling (llm : Conversation -> ModelResponse) : Prop :=
  forall c, completed (llm c) = true /\ tool_calls (fragments (llm c)) <> [].

End AssistantLoop.

(** ** Sample inputs *)

Definition hotel_query : Query :=
  {| query_type := "hotel"; query := "a room for two" |}.

Definition trip_query : Query :=
  {| query_type := "trip"; query := "Seattle to Portland by car" |}.

Definition restaurant_query : Query :=
  {| query_type := "restaurant"; query := "Find me Italian food" |}.

Definition no_location : geocoder.ip :=
  {| geocoder.city := None; geocoder.country := None; geocoder.latlng := None |}.

Definition seattle : geocoder.ip :=
  {| geocoder.city := Some "Seattle"; geocoder.country := Some "US";
     geocoder.latlng := Some [Some 47.5%float; Some (-122.25)%float] |}.

(** An assistant iterator that holds the chunks still to be given. *)
Definition canned_call (chunks : list string) (a : Assistant) (q : string)
  : list string * Assistant := (chunks, a).

Definition canned_anext (it : list string) (a : Assistant)
  : option (string * list string) * Assistant :=
  match it with
  | [] => (None, a)
  | chunk :: rest => (Some (chunk, rest), a)
  end.

(** A [/tourguide] request that leaves the place and the latitude unset. *)
Definition unlocated_request : TourGuideRequest :=
  {| base_image := "photo"; masked_image := "mask";
     location := ""; lat := 0%float; lon := 12.5%float |}.

(** The closure that [query_assistant] hands to the response. *)
Definition closure_of (q : Query) (preferences : list string) (geo : geocoder.ip)
  : GenerateResponse :=
  {| gr_query := q;
     gr_preferences_str := join ", " preferences;
     gr_location_str :=
       format_opt (geocoder.city geo) +:+ ", " +:+ format_opt (geocoder.country geo) |}.

(** An event that leaves the selection held by the shared assistant alone:
    a handler, or the start of the body of an unsupported query. *)
Definition quiet (e : Event) : Prop :=
  match e with
  | Handle _ => True
  | Begin g => supported (query_type (gr_query g)) = false
  end.

(** A tool that accepts any arguments and answers with its name and them. *)
Definition echo_tool (n : string) : AssistantLoop.ToolDefinition :=
  {| AssistantLoop.name := n;
     AssistantLoop.description := "";
     AssistantLoop.parameterSchema := fun _ => true;
     AssistantLoop.execute := fun args => Some (n +:+ ":" +:+ args) |}.

Definition sample_registry : list AssistantLoop.ToolDefinition :=
  [echo_tool "search"; echo_tool "geocode"].

Definition search_pizza : AssistantLoop.ToolCallRequest :=
  {| AssistantLoop.toolName := "search"; AssistantLoop.arguments := "pizza" |}.

Definition geocode_rome : AssistantLoop.ToolCallRequest :=
  {| AssistantLoop.toolName := "geocode"; AssistantLoop.arguments := "Rome" |}.

Definition fly_away : AssistantLoop.ToolCallRequest :=
  {| AssistantLoop.toolName := "fly"; AssistantLoop.arguments := "" |}.

(** A model that asks for one more search in every round. *)
Definition insistent_llm (c : AssistantLoop.Conversation) : AssistantLoop.ModelResponse :=
  {| AssistantLoop.fragments :=
       [AssistantLoop.FText "Let me look."; AssistantLoop.FToolCall search_pizza];
     AssistantLoop.completed := true |}.

(** The executions of a turn complete last request first. *)
Definition last_first (round : nat) (calls : list AssistantLoop.ToolCallRequest)
  : list nat := reverse (seq 0 (length calls)).

(** A turn in which the model has just asked for three tools. *)
Definition three_calls_pending : AssistantLoop.Loop :=
  {| AssistantLoop.phase :=
       AssistantLoop.ModelStreaming
         [AssistantLoop.FToolCall search_pizza;
          AssistantLoop.FText "and";
          AssistantLoop.FToolCall geocode_rome;
          AssistantLoop.FToolCall fly_away] true;
     AssistantLoop.conversation :=
       {| AssistantLoop.systemPrompt := "";
          AssistantLoop.activeTools := sample_registry;
          AssistantLoop.messages :=
            [ {| AssistantLoop.role := AssistantLoop.User;
                 AssistantLoop.content := AssistantLoop.Text "dinner in Rome" |} ] |};
     AssistantLoop.rounds := 1;
     AssistantLoop.events := [] |}.

(** A [/tourguide] request whose coordinates are not numbers of a map. *)
Definition odd_request : TourGuideRequest :=
  {| base_image := "photo"; masked_image := "mask";
     location := "Rome"; lat := nan; lon := infinity |}.

(** A lookup that found the city but no coordinates. *)
Definition city_only : geocoder.ip :=
  {| geocoder.city := Some "Seattle"; geocoder.country := Some "US";
     geocoder.latlng := Some [] |}.

(** The effects of relaying the given chunks one after the other. *)
Definition relay_trace (chunks : list string) : list Effect :=
  flat_map (fun chunk => [Anext; Yield chunk]) chunks.

(** The [/add_preference] calls among the events. *)
Definition additions (es : list Event) : nat := length (added es).

(** * Properties *)

(** ** Query classification *)

Lemma trip_tools_NoDup : NoDup trip_tools.
Proof. compute_done. Qed.

Lemma place_tools_NoDup : NoDup place_tools.
Proof. compute_done. Qed.

Lemma setup_trip g :
  query_type (gr_query g) = "trip" ->
  generate_response_setup g = Configure system_trip trip_tools.
Proof. intros H. unfold generate_response_setup. rewrite H. reflexivity. Qed.

Lemma setup_restaurant g :
  query_type (gr_query g) = "restaurant" ->
  generate_response_setup g =
    Configure
      (system_template "restaurant" (gr_location_str g) (gr_preferences_str g)
         "recommended menu options, expected price to eat there & overall restaurant rating"
         "eat")
      place_tools.
Proof. intros H. unfold generate_response_setup. rewrite H. reflexivity. Qed.

Lemma setup_place g :
  query_type (gr_query g) = "place" ->
  generate_response_setup g =
    Configure
      (system_template "place" (gr_location_str g) (gr_preferences_str g)
         "recommended activities, expected costs & overall ratings" "visit")
      place_tools.
Proof. intros H. unfold generate_response_setup. rewrite H. reflexivity. Qed.

Lemma setup_unsupported g :
  supported (query_type (gr_query g)) = false ->
  generate_response_setup g =
    Reject ("Invalid query type: " +:+ query_type (gr_query g)
            +:+ ". Supported types are 'restaurant', 'place', and 'trip'.").
Proof.
  unfold supported, generate_response_setup. intros H.
  apply orb_false_iff in H as [H Hp]. apply orb_false_iff in H as [Ht Hr].
  rewrite Ht, Hr, Hp. reflexivity.
Qed.

(** Whatever the branch, the tool list it installs has no duplicate, so
    [define_tools] accepts it. *)
Lemma setup_tools_NoDup g sys ts :
  generate_response_setup g = Configure sys ts -> NoDup ts.
Proof.
  unfold generate_response_setup.
  destruct (String.eqb _ "trip"); [intros [= _ <-]; apply trip_tools_NoDup|].
  destruct (_ || _); [intros [= _ <-]; apply place_tools_NoDup | discriminate].
Qed.

Lemma setup_supported g sys ts :
  generate_response_setup g = Configure sys ts ->
  supported (query_type (gr_query g)) = true.
Proof.
  unfold generate_response_setup, supported.
  destruct (String.eqb _ "trip"); [reflexivity|]. simpl.
  destruct (_ || _); [reflexivity | discriminate].
Qed.

Lemma begin_stream_configure g sys ts a :
  generate_response_setup g = Configure sys ts ->
  begin_stream g a = {| model := model a; system := sys; tools := ts |}.
Proof.
  intros H. unfold begin_stream, define_tools. rewrite H.
  destruct (decide (NoDup ts)) as [_|Hn]; [reflexivity|].
  destruct Hn. eapply setup_tools_NoDup, H.
Qed.

Lemma begin_stream_reject g message a :
  generate_response_setup g = Reject message -> begin_stream g a = a.
Proof. intros H. unfold begin_stream. rewrite H. reflexivity. Qed.

(** ** The generator, one resumption at a time *)

Section GeneratorFacts.

Context {AIter : Type}.
Variable assistant_call : Assistant -> string -> AIter * Assistant.
Variable assistant_anext : AIter -> Assistant -> option (string * AIter) * Assistant.

(** A supported query: the first resumption writes the selection to the
    shared assistant, starts the loop on it and relays its first chunk. *)
Lemma gen_next_created_configure g sys ts a :
  generate_response_setup g = Configure sys ts ->
  gen_next assistant_call assistant_anext g Created a =
    let '(it, a2) := assistant_call (begin_stream g a) (query (gr_query g)) in
    relay assistant_anext it a2
      [SetSystem sys; DefineTools ts; CallAssistant (query (gr_query g))].
Proof.
  intros H. rewrite (begin_stream_configure _ _ _ _ H).
  unfold gen_next, define_tools. rewrite H.
  destruct (decide (NoDup ts)) as [_|Hn]; [reflexivity|].
  destruct Hn. eapply setup_tools_NoDup, H.
Qed.

Lemma gen_next_created_reject g message a :
  generate_response_setup g = Reject message ->
  gen_next assistant_call assistant_anext g Created a =
    {| outcome := Yielded message; state := Rejected; shared := a;
       effects := [Yield message] |}.
Proof. intros H. unfold gen_next. rewrite H. reflexivity. Qed.

(** While it relays, the generator hands on exactly the chunks of the
    assistant's iterator and advances it once per resumption. *)
Lemma gen_take_relaying g n : forall it a,
  exists es st,
    gen_take assistant_call assistant_anext n g (Relaying it) a
      = (fst (assistant_take assistant_anext n it a), es, st,
         snd (assistant_take assistant_anext n it a))
    /\ relays_only es.
Proof.
  induction n as [|n IH]; intros it a; simpl.
  - exists [], (Relaying it). split; [reflexivity | constructor].
  - unfold relay. destruct (assistant_anext it a) as [[[chunk it']|] a']; simpl.
    + destruct (IH it' a') as (es & st & -> & Hes).
      destruct (assistant_take assistant_anext n it' a') as [cs a'']; simpl.
      exists (Anext :: Yield chunk :: es), st. split; [reflexivity|].
      apply Forall_cons; split; [by left|].
      apply Forall_cons; split; [right; by exists chunk | exact Hes].
    + exists [Anext], Closed. split; [reflexivity|].
      apply Forall_cons; split; [by left | constructor].
Qed.

(** The whole stream of a rejected query. *)
Lemma gen_take_reject g message n a :
  generate_response_setup g = Reject message ->
  gen_take assistant_call assistant_anext (S (S n)) g Created a
    = ([message], [Yield message], Closed, a).
Proof.
  intros H. cbn [gen_take].
  rewrite (gen_next_created_reject _ _ _ H). reflexivity.
Qed.

End GeneratorFacts.

Lemma supported_false qt :
  qt <> "trip" -> qt <> "restaurant" -> qt <> "place" -> supported qt = false.
Proof.
  intros Ht Hr Hp. unfold supported.
  apply String.eqb_neq in Ht, Hr, Hp. rewrite Ht, Hr, Hp. reflexivity.
Qed.

Section StreamFacts.

Context {AIter : Type}.
Variable assistant_call : Assistant -> string -> AIter * Assistant.
Variable assistant_anext : AIter -> Assistant -> option (string * AIter) * Assistant.

(** The whole stream of a supported query: the three set-up effects come
    first and once, everything after them is relaying, and the chunks are
    those of the assistant's iterator. *)
Lemma gen_take_created_configure g sys ts a n :
  generate_response_setup g = Configure sys ts ->
  exists es st,
    gen_take assistant_call assistant_anext (S n) g Created a
      = (fst (assistant_take assistant_anext (S n)
                (fst (assistant_call (begin_stream g a) (query (gr_query g))))
                (snd (assistant_call (begin_stream g a) (query (gr_query g))))),
         SetSystem sys :: DefineTools ts :: CallAssistant (query (gr_query g)) :: es,
         st,
         snd (assistant_take assistant_anext (S n)
                (fst (assistant_call (begin_stream g a) (query (gr_query g))))
                (snd (assistant_call (begin_stream g a) (query (gr_query g))))))
    /\ relays_only es.
Proof.
  intros H. cbn [gen_take assistant_take].
  rewrite (gen_next_created_configure _ _ _ _ _ _ H).
  destruct (assistant_call _ _) as [it a2]; simpl. unfold relay.
  destruct (assistant_anext it a2) as [[[chunk it']|] a']; simpl.
  - destruct (gen_take_relaying assistant_call assistant_anext g n it' a')
      as (es & st & -> & Hes).
    destruct (assistant_take assistant_anext n it' a') as [cs a'']; simpl.
    exists (Anext :: Yield chunk :: es), st. split; [reflexivity|].
    apply Forall_cons; split; [by left|].
    apply Forall_cons; split; [right; by exists chunk | exact Hes].
  - exists [Anext], Closed. split; [reflexivity|].
    apply Forall_cons; split; [by left | constructor].
Qed.

End StreamFacts.

(** ** The claims about [/query_assistant] *)

(** C1. A [/query_assistant] request whose [query_type] is none of 'trip',
    'restaurant' and 'place' is answered by a stream that delivers the one
    invalid-query-type message and then ends.  Producing it performs the
    single effect of yielding that message: nothing is written to the
    assistant, no tool set is installed, the assistant is never called, and
    the shared assistant object is left as it was. *)
Theorem invalid_query_type_single_message
    (q : Query) (preferences : list string) (geo : geocoder.ip) :
  query_type q <> "trip" ->
  query_type q <> "restaurant" ->
  query_type q <> "place" ->
  exists g message,
    content (query_assistant q preferences geo) = generate_response g
    /\ message = "Invalid query type: " +:+ query_type q
                 +:+ ". Supported types are 'restaurant', 'place', and 'trip'."
    /\ forall (AIter : Type)
         (assistant_call : Assistant -> string -> AIter * Assistant)
         (assistant_anext : AIter -> Assistant -> option (string * AIter) * Assistant)
         (a : Assistant) (n : nat),
         gen_take assistant_call assistant_anext 1 g Created a
           = ([message], [Yield message], Rejected, a)
         /\ gen_take assistant_call assistant_anext (S (S n)) g Created a
           = ([message], [Yield message], Closed, a).
Proof.
  intros Ht Hr Hp. eexists _, _. split; [reflexivity|]. split; [reflexivity|].
  intros AIter call anext a n.
  pose proof (supported_false _ Ht Hr Hp) as Hs.
  set (g := {| gr_query := q |}).
  assert (Hg : generate_response_setup g = Reject
            ("Invalid query type: " +:+ query_type q
             +:+ ". Supported types are 'restaurant', 'place', and 'trip'."))
    by (apply (setup_unsupported g), Hs).
  split.
  - cbn [gen_take]. rewrite (gen_next_created_reject _ _ _ _ _ Hg). reflexivity.
  - apply gen_take_reject, Hg.
Qed.

Lemma invalid_query_type_single_message_witness :
  exists g message,
    content (query_assistant hotel_query [] no_location) = generate_response g
    /\ message = "Invalid query type: hotel. Supported types are 'restaurant', 'place', and 'trip'."
    /\ forall (AIter : Type)
         (assistant_call : Assistant -> string -> AIter * Assistant)
         (assistant_anext : AIter -> Assistant -> option (string * AIter) * Assistant)
         (a : Assistant) (n : nat),
         gen_take assistant_call assistant_anext 1 g Created a
           = ([message], [Yield message], Rejected, a)
         /\ gen_take assistant_call assistant_anext (S (S n)) g Created a
           = ([message], [Yield message], Closed, a).
Proof.
  apply (invalid_query_type_single_message hotel_query [] no_location); discriminate.
Defined.

(** C9. An unsupported [query_type] does not make the request fail: the
    handler returns a streaming response with status 200 and media type
    text/plain, the process state is untouched, and the body of the stream
    is the single invalid-query-type message. *)
Theorem invalid_query_type_in_stream_body (q : Query) (geo : geocoder.ip) (s : Server) :
  query_type q <> "trip" ->
  query_type q <> "restaurant" ->
  query_type q <> "place" ->
  exists g,
    handle (POST_query_assistant q geo) s
      = (s, Streaming {| content := generate_response g;
                         media_type := "text/plain";
                         status_code := 200 |})
    /\ forall (AIter : Type)
         (assistant_call : Assistant -> string -> AIter * Assistant)
         (assistant_anext : AIter -> Assistant -> option (string * AIter) * Assistant)
         (a : Assistant) (n : nat),
         (gen_take assistant_call assistant_anext (S (S n)) g Created a).1.1.1
           = ["Invalid query type: " +:+ query_type q
              +:+ ". Supported types are 'restaurant', 'place', and 'trip'."]
         /\ (gen_take assistant_call assistant_anext (S (S n)) g Created a).1.2
           = Closed.
Proof.
  intros Ht Hr Hp. eexists. split; [reflexivity|].
  intros AIter call anext a n.
  set (g := {| gr_query := q |}).
  rewrite (gen_take_reject call anext g _ n a
             (setup_unsupported g (supported_false _ Ht Hr Hp))).
  split; reflexivity.
Qed.

Lemma invalid_query_type_in_stream_body_witness :
  exists g,
    handle (POST_query_assistant hotel_query seattle) (boot "" [])
      = (boot "" [],
         Streaming {| content := generate_response g;
                      media_type := "text/plain";
                      status_code := 200 |})
    /\ forall (AIter : Type)
         (assistant_call : Assistant -> string -> AIter * Assistant)
         (assistant_anext : AIter -> Assistant -> option (string * AIter) * Assistant)
         (a : Assistant) (n : nat),
         (gen_take assistant_call assistant_anext (S (S n)) g Created a).1.1.1
           = ["Invalid query type: hotel. Supported types are 'restaurant', 'place', and 'trip'."]
         /\ (gen_take assistant_call assistant_anext (S (S n)) g Created a).1.2
           = Closed.
Proof.
  apply (invalid_query_type_in_stream_body hotel_query seattle (boot "" []));
    discriminate.
Defined.

(** C3. The generator of a [/query_assistant] request selects by
    [query_type]: 'trip' installs the trip prompt and exactly the tools
    SearchInternet, ReadWebsite, Geocode, GetDistanceMatrix, OptimizeRoute;
    'restaurant' and 'place' install the filled-in template and exactly
    SearchInternet, ReadWebsite, SearchForNearbyPlacesOfType.  The system
    prompt and the tool set are written once, before the assistant is
    called: the assistant is called on the object that holds them, and every
    later effect of the generator is the relaying of a chunk. *)
Theorem tool_set_fixed_before_loop
    (q : Query) (preferences : list string) (geo : geocoder.ip) :
  exists g,
    content (query_assistant q preferences geo) = generate_response g
    /\ forall (AIter : Type)
         (assistant_call : Assistant -> string -> AIter * Assistant)
         (assistant_anext : AIter -> Assistant -> option (string * AIter) * Assistant)
         (a : Assistant),
         (query_type q = "trip" ->
          let ts := [SearchInternet; ReadWebsite; Geocode; GetDistanceMatrix;
                     OptimizeRoute] in
          let configured := {| model := model a; system := system_trip; tools := ts |} in
          begin_stream g a = configured
          /\ gen_next assistant_call assistant_anext g Created a
             = (let '(it, a2) := assistant_call configured (query q) in
                relay assistant_anext it a2
                  [SetSystem system_trip; DefineTools ts; CallAssistant (query q)])
          /\ forall n, exists rest,
               (gen_take assistant_call assistant_anext (S n) g Created a).1.1.2
                 = SetSystem system_trip :: DefineTools ts
                   :: CallAssistant (query q) :: rest
               /\ relays_only rest)
         /\ (query_type q = "restaurant" \/ query_type q = "place" ->
             let ts := [SearchInternet; ReadWebsite; SearchForNearbyPlacesOfType] in
             let sys :=
               system_template (query_type q)
                 (format_opt (geocoder.city geo) +:+ ", "
                  +:+ format_opt (geocoder.country geo))
                 (join ", " preferences)
                 (if String.eqb (query_type q) "restaurant"
                  then "recommended menu options, expected price to eat there & overall restaurant rating"
                  else "recommended activities, expected costs & overall ratings")
                 (if String.eqb (query_type q) "restaurant" then "eat" else "visit") in
             let configured := {| model := model a; system := sys; tools := ts |} in
             begin_stream g a = configured
             /\ gen_next assistant_call assistant_anext g Created a
                = (let '(it, a2) := assistant_call configured (query q) in
                   relay assistant_anext it a2
                     [SetSystem sys; DefineTools ts; CallAssistant (query q)])
             /\ forall n, exists rest,
                  (gen_take assistant_call assistant_anext (S n) g Created a).1.1.2
                    = SetSystem sys :: DefineTools ts
                      :: CallAssistant (query q) :: rest
                  /\ relays_only rest).
Proof.
  eexists. split; [reflexivity|]. intros AIter call anext a.
  set (g := {| gr_query := q |}).
  assert (Hall : forall sys ts,
            generate_response_setup g = Configure sys ts ->
            begin_stream g a = {| model := model a; system := sys; tools := ts |}
            /\ gen_next call anext g Created a
               = (let '(it, a2) :=
                    call {| model := model a; system := sys; tools := ts |} (query q) in
                  relay anext it a2 [SetSystem sys; DefineTools ts; CallAssistant (query q)])
            /\ forall n, exists rest,
                 (gen_take call anext (S n) g Created a).1.1.2
                   = SetSystem sys :: DefineTools ts :: CallAssistant (query q) :: rest
                 /\ relays_only rest).
  { intros sys ts H. split; [by apply begin_stream_configure|]. split.
    - rewrite (gen_next_created_configure call anext g sys ts a H).
      by rewrite (begin_stream_configure g sys ts a H).
    - intros n.
      destruct (gen_take_created_configure call anext g sys ts a n H)
        as (es & st & -> & Hes).
      by exists es. }
  split.
  - intros Hq. apply Hall. by apply (setup_trip g).
  - intros [Hq|Hq]; apply Hall.
    + rewrite (setup_restaurant g Hq). simpl. by rewrite Hq.
    + rewrite (setup_place g Hq). simpl. by rewrite Hq.
Qed.

Lemma tool_set_fixed_before_loop_witness :
  exists g,
    content (query_assistant trip_query ["vegetarian"] seattle) = generate_response g
    /\ tools (begin_stream g (assistant (boot "" [])))
       = [SearchInternet; ReadWebsite; Geocode; GetDistanceMatrix; OptimizeRoute]
    /\ (gen_take (canned_call ["Day 1"; "Day 2"]) canned_anext 3 g Created
          (assistant (boot "" []))).1.1.2
       = [SetSystem system_trip;
          DefineTools [SearchInternet; ReadWebsite; Geocode; GetDistanceMatrix;
                       OptimizeRoute];
          CallAssistant "Seattle to Portland by car";
          Anext; Yield "Day 1"; Anext; Yield "Day 2"; Anext].
Proof.
  destruct (tool_set_fixed_before_loop trip_query ["vegetarian"] seattle)
    as (g & Hg & Hrun).
  exists g. split; [exact Hg|].
  destruct (Hrun _ (canned_call ["Day 1"; "Day 2"]) canned_anext
              (assistant (boot "" []))) as [Htrip _].
  destruct (Htrip eq_refl) as (Hb & _ & _).
  split; [by rewrite Hb|].
  injection Hg as <-. reflexivity.
Defined.

(** C6. Every [/query_assistant] request is answered by a streaming
    response of media type text/plain.  Its body is produced chunk by
    chunk.  For 'trip', 'restaurant' and 'place' the assistant is called
    with the text of the query on the configured object, each resumption of
    the generator advances the assistant's iterator once and hands on the
    chunk it gives, unchanged, and [n] resumptions deliver exactly the first
    [n] chunks of the assistant.  For any other type the body is the one
    invalid-query-type message. *)
Theorem query_assistant_streams_text (q : Query) (geo : geocoder.ip) (s : Server) :
  exists g,
    handle (POST_query_assistant q geo) s
      = (s, Streaming {| content := generate_response g;
                         media_type := "text/plain";
                         status_code := 200 |})
    /\ forall (AIter : Type)
         (assistant_call : Assistant -> string -> AIter * Assistant)
         (assistant_anext : AIter -> Assistant -> option (string * AIter) * Assistant)
         (a : Assistant),
         (forall it,
            gen_next assistant_call assistant_anext g (Relaying it) a
              = match assistant_anext it a with
                | (Some (chunk, it'), a') =>
                    {| outcome := Yielded chunk; state := Relaying it'; shared := a';
                       effects := [Anext; Yield chunk] |}
                | (None, a') =>
                    {| outcome := Stopped; state := Closed; shared := a';
                       effects := [Anext] |}
                end)
         /\ (query_type q = "trip" ->
             forall n,
               (gen_take assistant_call assistant_anext n g Created a).1.1.1
                 = (let '(it, a2) :=
                      assistant_call
                        {| model := model a; system := system_trip;
                           tools := [SearchInternet; ReadWebsite; Geocode;
                                     GetDistanceMatrix; OptimizeRoute] |}
                        (query q) in
                    (assistant_take assistant_anext n it a2).1))
         /\ (query_type q = "restaurant" \/ query_type q = "place" ->
             forall n,
               (gen_take assistant_call assistant_anext n g Created a).1.1.1
                 = (let '(it, a2) :=
                      assistant_call
                        {| model := model a;
                           system :=
                             system_template (query_type q)
                               (format_opt (geocoder.city geo) +:+ ", "
                                +:+ format_opt (geocoder.country geo))
                               (join ", " (user_preferences s))
                               (if String.eqb (query_type q) "restaurant"
                                then "recommended menu options, expected price to eat there & overall restaurant rating"
                                else "recommended activities, expected costs & overall ratings")
                               (if String.eqb (query_type q) "restaurant"
                                then "eat" else "visit");
                           tools := [SearchInternet; ReadWebsite;
                                     SearchForNearbyPlacesOfType] |}
                        (query q) in
                    (assistant_take assistant_anext n it a2).1))
         /\ (query_type q <> "trip" ->
             query_type q <> "restaurant" ->
             query_type q <> "place" ->
             forall n,
               (gen_take assistant_call assistant_anext n g Created a).1.1.1
                 = take n ["Invalid query type: " +:+ query_type q
                           +:+ ". Supported types are 'restaurant', 'place', and 'trip'."]).
Proof.
  eexists. split; [reflexivity|]. intros AIter call anext a.
  set (g := {| gr_query := q |}).
  assert (Hall : forall sys ts,
            generate_response_setup g = Configure sys ts ->
            forall n,
              (gen_take call anext n g Created a).1.1.1
                = (let '(it, a2) :=
                     call {| model := model a; system := sys; tools := ts |} (query q) in
                   (assistant_take anext n it a2).1)).
  { intros sys ts Hg n. rewrite <- (begin_stream_configure g sys ts a Hg).
    destruct n as [|n].
    - by destruct (call _ _).
    - destruct (gen_take_created_configure call anext g sys ts a n Hg)
        as (es & st & -> & _).
      by destruct (call _ _). }
  split; [intros it; reflexivity|]. split; [|split].
  - intros Hq. apply Hall. by apply (setup_trip g).
  - intros [Hq|Hq]; apply Hall.
    + rewrite (setup_restaurant g Hq). simpl. by rewrite Hq.
    + rewrite (setup_place g Hq). simpl. by rewrite Hq.
  - intros Ht Hr Hp n.
    pose proof (setup_unsupported g (supported_false _ Ht Hr Hp)) as Hg.
    destruct n as [|[|n]].
    + reflexivity.
    + cbn [gen_take]. by rewrite (gen_next_created_reject call anext g _ a Hg).
    + by rewrite (gen_take_reject call anext g _ n a Hg).
Qed.

Lemma query_assistant_streams_text_witness :
  exists g,
    handle (POST_query_assistant trip_query seattle) (boot "" [])
      = (boot "" [],
         Streaming {| content := generate_response g;
                      media_type := "text/plain";
                      status_code := 200 |})
    /\ (gen_take (canned_call ["Day 1"; "Day 2"; "Day 3"]) canned_anext 2 g Created
          (assistant (boot "" []))).1.1.1
       = ["Day 1"; "Day 2"].
Proof.
  destruct (query_assistant_streams_text trip_query seattle (boot "" []))
    as (g & Hg & Hrun).
  exists g. split; [exact Hg|].
  destruct (Hrun _ (canned_call ["Day 1"; "Day 2"; "Day 3"]) canned_anext
              (assistant (boot "" []))) as (_ & Htrip & _).
  rewrite (Htrip eq_refl 2). reflexivity.
Defined.

(** ** The other endpoints *)

(** C7. [/location] answers, for every call and in every state, with the
    object whose fields are [city], [country] and [latlng], each taken from
    the result of the IP lookup; the state of the process is unchanged. *)
Theorem location_fields (geo : geocoder.ip) (s : Server) :
  exists l,
    handle (GET_location geo) s = (s, LocationJson l)
    /\ loc_city l = geocoder.city geo
    /\ loc_country l = geocoder.country geo
    /\ loc_latlng l = geocoder.latlng geo.
Proof. eexists. repeat split. Qed.

Lemma occur_user_preferences (s : Server) (e : Event) :
  user_preferences (occur s e) = (user_preferences s ++ added [e])%list.
Proof.
  destruct e as [[geo|p| |request geo|q geo|request]|g]; simpl;
    rewrite ?app_nil_r; try reflexivity.
  by destruct (query_everywhere_tourguide _ _).
Qed.

Lemma added_app (es1 es2 : list Event) :
  added (es1 ++ es2) = (added es1 ++ added es2)%list.
Proof.
  induction es1 as [|[[geo|p| |request geo|q geo|request]|g] es1 IH]; simpl;
    by rewrite ?IH.
Qed.

Lemma run_user_preferences (es : list Event) (s : Server) :
  user_preferences (run es s) = (user_preferences s ++ added es)%list.
Proof.
  revert s. induction es as [|e es IH]; intros s.
  - simpl. by rewrite app_nil_r.
  - change (run (e :: es) s) with (run es (occur s e)).
    rewrite IH, occur_user_preferences.
    change (e :: es) with ([e] ++ es). by rewrite added_app, app_assoc.
Qed.

(** C8. There is one preference list in the process.  After any sequence
    of events since start-up, it holds the preferences of all the
    [/add_preference] calls made so far, oldest first; [/preferences]
    returns exactly that list, and a further [/add_preference] appends its
    preference at the end and answers 'Added preference: ' followed by the
    preference. *)
Theorem preferences_shared_list
    (system0 : string) (tools0 : list Tool) (es : list Event) (p : UserPreference) :
  let s := run es (boot system0 tools0) in
  handle GET_preferences s = (s, PreferencesJson (added es))
  /\ handle (POST_add_preference p) s
     = ({| assistant := assistant s;
           user_preferences := (added es ++ [preference p])%list |},
        MessageJson ("Added preference: " +:+ preference p))
  /\ handle GET_preferences (run (es ++ [Handle (POST_add_preference p)])
                               (boot system0 tools0))
     = (run (es ++ [Handle (POST_add_preference p)]) (boot system0 tools0),
        PreferencesJson (added es ++ [preference p])%list).
Proof.
  intros s.
  assert (Hs : user_preferences s = added es)
    by (unfold s; by rewrite run_user_preferences).
  split; [|split].
  - simpl. unfold get_preferences. by rewrite Hs.
  - simpl. by rewrite Hs.
  - simpl. unfold get_preferences.
    by rewrite run_user_preferences, added_app.
Qed.

(** C10, as stated, fails.  A request with a zero latitude meets a lookup
    that found nothing: line 89 subscripts [None], the handler raises a
    [TypeError], and [run_everywhere_tour_guide] is not called at all, so
    nothing is replaced. *)
Lemma tourguide_zero_without_lookup_raises :
  PrimFloat.eqb (lat unlocated_request) 0 = true
  /\ location unlocated_request = ""
  /\ query_everywhere_tourguide unlocated_request (get_location no_location)
     = inl TypeError
  /\ handle (POST_tourguide unlocated_request no_location) (boot "" [])
     = (boot "" [], InternalServerError TypeError).
Proof. repeat split. Qed.

(** C10, amended.  [/tourguide] treats an empty place name and a zero
    coordinate as missing.  The place passed to [run_everywhere_tour_guide]
    is the looked-up 'city, country' if [location] is empty and [location]
    itself otherwise.  If [lat] or [lon] is zero, then either the lookup
    starts with a latitude and a longitude, and both coordinates passed are
    those, or the handler raises before the call ([TypeError] for a missing
    list or number, [IndexError] for a list that is too short); a zero is
    never passed as supplied.  If neither is zero, both are passed as
    supplied, whatever the lookup. *)
Theorem tourguide_zero_replaced_or_raises
    (request : TourGuideRequest) (geo : geocoder.ip) :
  exists location',
    (location request = "" ->
     location' = format_opt (geocoder.city geo) +:+ ", "
                 +:+ format_opt (geocoder.country geo))
    /\ (location request <> "" -> location' = location request)
    /\ (PrimFloat.eqb (lat request) 0 = true \/ PrimFloat.eqb (lon request) 0 = true ->
        match geocoder.latlng geo with
        | Some (Some la :: Some lo :: _) =>
            query_everywhere_tourguide request (get_location geo)
              = inr (streaming_response
                       (run_everywhere_tour_guide
                          (base_image request) (masked_image request) location' la lo)
                       "text/event-stream")
        | None | Some (None :: _) | Some (Some _ :: None :: _) =>
            query_everywhere_tourguide request (get_location geo) = inl TypeError
        | Some [] | Some [Some _] =>
            query_everywhere_tourguide request (get_location geo) = inl IndexError
        end)
    /\ (PrimFloat.eqb (lat request) 0 = false ->
        PrimFloat.eqb (lon request) 0 = false ->
        query_everywhere_tourguide request (get_location geo)
          = inr (streaming_response
                   (run_everywhere_tour_guide
                      (base_image request) (masked_image request) location'
                      (lat request) (lon request))
                   "text/event-stream")).
Proof.
  exists (if String.eqb (location request) ""
          then format_opt (geocoder.city geo) +:+ ", "
               +:+ format_opt (geocoder.country geo)
          else location request).
  split; [by intros ->|]. split.
  { intros Hl. apply String.eqb_neq in Hl. by rewrite Hl. }
  unfold query_everywhere_tourguide, float_truthy, str_truthy. simpl.
  rewrite !negb_involutive. split.
  - intros Hz.
    assert (PrimFloat.eqb (lat request) 0 || PrimFloat.eqb (lon request) 0 = true)
      as -> by (destruct Hz as [-> | ->]; [reflexivity | apply orb_true_r]).
    by destruct (geocoder.latlng geo) as [[|[la|] [|[lo|] rest]]|].
  - by intros -> ->.
Qed.

Lemma tourguide_zero_replaced_or_raises_witness :
  query_everywhere_tourguide unlocated_request (get_location seattle)
    = inr (streaming_response
             (run_everywhere_tour_guide "photo" "mask" "Seattle, US"
                47.5%float (-122.25)%float)
             "text/event-stream").
Proof.
  destruct (tourguide_zero_replaced_or_raises unlocated_request seattle)
    as (location' & Hl & _ & Hz & _).
  rewrite (Hl eq_refl) in Hz. apply Hz. left. reflexivity.
Defined.

(** ** The shared assistant object *)

Lemma run_app (es1 es2 : list Event) (s : Server) :
  run (es1 ++ es2) s = run es2 (run es1 s).
Proof. apply foldl_app. Qed.

Lemma handle_assistant (r : Request) (s : Server) :
  assistant (fst (handle r s)) = assistant s.
Proof.
  destruct r as [geo|p| |request geo|q geo|request]; simpl; try reflexivity.
  by destruct (query_everywhere_tourguide _ _).
Qed.

Lemma quiet_assistant (e : Event) (s : Server) :
  quiet e -> assistant (occur s e) = assistant s.
Proof.
  destruct e as [r|g]; simpl; intros H.
  - apply handle_assistant.
  - eapply begin_stream_reject, setup_unsupported, H.
Qed.

Lemma run_quiet (es : list Event) (s : Server) :
  Forall quiet es -> assistant (run es s) = assistant s.
Proof.
  intros H. revert s. induction H as [|e es He _ IH]; intros s; [reflexivity|].
  change (run (e :: es) s) with (run es (occur s e)).
  by rewrite IH, quiet_assistant.
Qed.

(** C2, as stated, fails.  A trip query is handled and its response body
    begins, which installs the trip tools on the assistant; a restaurant
    query is then handled and its body begins.  The one assistant object of
    the process, on which the trip query's loop is running, now holds the
    restaurant prompt and tools: the tool set is not private to a query. *)
Lemma concurrent_queries_share_tool_set :
  let gA := closure_of trip_query [] seattle in
  let gB := closure_of restaurant_query [] seattle in
  let s1 := run [Handle (POST_query_assistant trip_query seattle); Begin gA]
                (boot "" []) in
  let s2 := run [Handle (POST_query_assistant restaurant_query seattle); Begin gB] s1 in
  content (query_assistant trip_query (get_preferences (boot "" [])) seattle)
    = generate_response gA
  /\ tools (assistant s1) = trip_tools
  /\ system (assistant s1) = system_trip
  /\ tools (assistant s2) = place_tools
  /\ tools (assistant s2) <> trip_tools
  /\ system (assistant s2) <> system_trip.
Proof. repeat split; discriminate. Qed.

(** C2, amended.  The system prompt and the tool set live on the single
    assistant object of the process.  Handlers and the bodies of
    unsupported queries leave them alone; the body of a supported query
    overwrites both when it begins.  Hence, after any history, the assistant
    holds the selection of the last supported query whose body began, and a
    query keeps its selection only until the body of another supported query
    begins. *)
Theorem shared_assistant_holds_last_selection
    (es es' : list Event) (g : GenerateResponse) (sys : string) (ts : list Tool)
    (s : Server) :
  generate_response_setup g = Configure sys ts ->
  Forall quiet es' ->
  system (assistant (run (es ++ [Begin g] ++ es') s)) = sys
  /\ tools (assistant (run (es ++ [Begin g] ++ es') s)) = ts.
Proof.
  intros Hg Hq. rewrite !run_app, (run_quiet _ _ Hq). simpl.
  by rewrite (begin_stream_configure _ _ _ _ Hg).
Qed.

Lemma shared_assistant_holds_last_selection_witness :
  system (assistant
            (run ([Begin (closure_of restaurant_query [] seattle)]
                  ++ [Begin (closure_of trip_query [] seattle)]
                  ++ [Handle GET_preferences; Begin (closure_of hotel_query [] seattle)])
                 (boot "" []))) = system_trip
  /\ tools (assistant
            (run ([Begin (closure_of restaurant_query [] seattle)]
                  ++ [Begin (closure_of trip_query [] seattle)]
                  ++ [Handle GET_preferences; Begin (closure_of hotel_query [] seattle)])
                 (boot "" []))) = trip_tools.
Proof.
  apply (shared_assistant_holds_last_selection
           [Begin (closure_of restaurant_query [] seattle)]
           [Handle GET_preferences; Begin (closure_of hotel_query [] seattle)]
           (closure_of trip_query [] seattle) system_trip trip_tools (boot "" [])).
  - reflexivity.
  - repeat constructor.
Defined.

(** ** The assistant loop: results of concurrent tool calls *)

Lemma omap_id_Some {A B} (f : A -> B) (l : list A) :
  omap id (Some ∘ f <$> l) = f <$> l.
Proof. induction l as [|x l IH]; simpl; [done | by f_equal]. Qed.

Section ToolTurn.

Import AssistantLoop.

Variable registry : list ToolDefinition.
Variable calls : list ToolCallRequest.

Lemma complete_length slots i :
  length (complete registry calls slots i) = length slots.
Proof. unfold complete. destruct (calls !! i); [apply length_insert | done]. Qed.

Lemma foldl_complete_length order : forall slots,
  length (foldl (complete registry calls) slots order) = length slots.
Proof.
  induction order as [|j order IH]; intros slots; simpl; [done|].
  by rewrite IH, complete_length.
Qed.

(** A slot holds the result of its own request as soon as that request has
    completed, whatever completed before or after it. *)
Lemma foldl_complete_lookup order : forall slots i c,
  length slots = length calls ->
  calls !! i = Some c ->
  foldl (complete registry calls) slots order !! i
    = if decide (i ∈ order) then Some (Some (executor registry c)) else slots !! i.
Proof.
  induction order as [|j order IH]; intros slots i c Hlen Hi.
  - simpl. by destruct (decide (i ∈ [])) as [?%elem_of_nil|].
  - cbn [foldl]. rewrite (IH _ i c); [|by rewrite complete_length|done].
    destruct (decide (i ∈ order)) as [Hin|Hnin].
    + destruct (decide (i ∈ j :: order)) as [_|Hn]; [done|].
      destruct Hn. apply elem_of_cons. by right.
    + unfold complete. destruct (decide (j = i)) as [->|Hne].
      * rewrite Hi. destruct (decide (i ∈ i :: order)) as [_|Hn].
        -- apply list_lookup_insert_eq. rewrite Hlen. by eapply lookup_lt_Some.
        -- destruct Hn. apply elem_of_cons. by left.
      * destruct (decide (i ∈ j :: order)) as [[->|?]%elem_of_cons|_]; [done..|].
        destruct (calls !! j); [by apply list_lookup_insert_ne | done].
Qed.

(** Once every execution has completed, the slots read in request order are
    the results of the requests in request order. *)
Lemma gather_all order :
  order ≡ₚ seq 0 (length calls) ->
  gather registry calls order = Some ∘ executor registry <$> calls.
Proof.
  intros Hperm. apply list_eq. intros i. unfold gather.
  destruct (calls !! i) as [c|] eqn:Hi.
  - rewrite (foldl_complete_lookup _ _ i c); [|by rewrite length_replicate|done].
    destruct (decide (i ∈ order)) as [_|Hn].
    + by rewrite list_lookup_fmap, Hi.
    + destruct Hn. rewrite Hperm. apply elem_of_seq.
      apply lookup_lt_Some in Hi. lia.
  - rewrite list_lookup_fmap, Hi. simpl. apply lookup_ge_None.
    rewrite foldl_complete_length, length_replicate. by apply lookup_ge_None.
Qed.

Lemma collected_gather order :
  order ≡ₚ seq 0 (length calls) ->
  collected (gather registry calls order) = executor registry <$> calls.
Proof.
  intros H. rewrite (gather_all _ H). apply omap_id_Some.
Qed.

End ToolTurn.

Section TranscriptFacts.

Import AssistantLoop.

Lemma append_all_messages ms : forall c,
  messages (append_all ms c) = messages c ++ ms.
Proof.
  induction ms as [|m ms IH]; intros c.
  - simpl. by rewrite app_nil_r.
  - change (append_all (m :: ms) c) with (append_all ms (append m c)).
    rewrite IH. simpl. by rewrite <- app_assoc.
Qed.

Lemma tool_results_app ms1 ms2 :
  tool_results (ms1 ++ ms2) = tool_results ms1 ++ tool_results ms2.
Proof. apply omap_app. Qed.

Lemma tool_results_tool_messages rs :
  tool_results (tool_message <$> rs) = rs.
Proof. induction rs as [|r rs IH]; simpl; [done | by f_equal]. Qed.

(** C5. When the model has issued the tool calls of a turn, the two
    transitions that follow (recording the requests, then executing them
    concurrently) extend the conversation by the message that carries the
    N requests and by exactly N tool-result messages, the i-th being the
    result of the i-th request, for every order in which the N executions
    complete. *)
Theorem tool_results_in_request_order
    (max_rounds : nat) (llm : Conversation -> ModelResponse)
    (completion_order : nat -> list ToolCallRequest -> list nat)
    (s : Loop) (c : ToolCallRequest) (rest : list Fragment) :
  phase s = ModelStreaming (FToolCall c :: rest) true
  \/ phase s = EmittingText (FToolCall c :: rest) true ->
  completion_order (rounds s) (c :: tool_calls rest)
    ≡ₚ seq 0 (length (c :: tool_calls rest)) ->
  phase (steps max_rounds llm completion_order 2 s) = AwaitingModel
  /\ messages (conversation (steps max_rounds llm completion_order 2 s))
     = messages (conversation s)
       ++ {| role := Model; content := Calls (c :: tool_calls rest) |}
       :: (tool_message <$>
             (executor (activeTools (conversation s)) <$> c :: tool_calls rest))
  /\ tool_results (messages (conversation (steps max_rounds llm completion_order 2 s)))
     = tool_results (messages (conversation s))
       ++ (executor (activeTools (conversation s)) <$> c :: tool_calls rest)
  /\ length (tool_results
               (messages (conversation (steps max_rounds llm completion_order 2 s))))
     = length (tool_results (messages (conversation s)))
       + length (c :: tool_calls rest).
Proof.
  intros Hphase Hperm.
  assert (Hstep : step max_rounds llm completion_order s
            = emit (ExecutingTools (c :: tool_calls rest))
                (append {| role := Model; content := Calls (c :: tool_calls rest) |}
                   (conversation s)) [] s)
    by (unfold step; destruct Hphase as [-> | ->]; reflexivity).
  assert (Hmsgs :
    messages (conversation (steps max_rounds llm completion_order 2 s))
    = messages (conversation s)
      ++ {| role := Model; content := Calls (c :: tool_calls rest) |}
      :: (tool_message <$>
            (executor (activeTools (conversation s)) <$> c :: tool_calls rest))).
  { cbn [steps]. rewrite Hstep. unfold step at 1. cbn [emit phase conversation rounds].
    rewrite append_all_messages. cbn [append activeTools messages].
    rewrite (collected_gather _ _ _ Hperm). by rewrite <- app_assoc. }
  assert (Hres :
    tool_results (messages (conversation (steps max_rounds llm completion_order 2 s)))
    = tool_results (messages (conversation s))
      ++ (executor (activeTools (conversation s)) <$> c :: tool_calls rest)).
  { rewrite Hmsgs.
    change (?x :: ?l) with ([x] ++ l) at 1.
    by rewrite !tool_results_app, tool_results_tool_messages. }
  split; [|split; [exact Hmsgs|split; [exact Hres|]]].
  - cbn [steps]. rewrite Hstep. reflexivity.
  - by rewrite Hres, length_app, length_fmap.
Qed.

End TranscriptFacts.

Lemma tool_results_in_request_order_witness :
  AssistantLoop.tool_results
    (AssistantLoop.messages
       (AssistantLoop.conversation
          (AssistantLoop.steps 5 insistent_llm last_first 2 three_calls_pending)))
  = [ {| AssistantLoop.resultTool := "search";
         AssistantLoop.result := inl "search:pizza" |};
      {| AssistantLoop.resultTool := "geocode";
         AssistantLoop.result := inl "geocode:Rome" |};
      {| AssistantLoop.resultTool := "fly";
         AssistantLoop.result := inr AssistantLoop.UnknownToolError |} ].
Proof.
  destruct (tool_results_in_request_order 5 insistent_llm last_first
              three_calls_pending search_pizza
              [AssistantLoop.FText "and"; AssistantLoop.FToolCall geocode_rome;
               AssistantLoop.FToolCall fly_away])
    as (_ & _ & H & _).
  - left. reflexivity.
  - apply reverse_Permutation.
  - rewrite H. reflexivity.
Defined.

(** ** The assistant loop: the round limit *)

Section RoundLimit.

Import AssistantLoop.

Variable M : nat.
Variable llm : Conversation -> ModelResponse.
Variable ord : nat -> list ToolCallRequest -> list nat.

Lemma steps_add n m s :
  steps M llm ord (n + m) s = steps M llm ord m (steps M llm ord n s).
Proof. revert s. induction n as [|n IH]; intros s; simpl; [done | apply IH]. Qed.

Lemma step_terminal s : terminal s = true -> step M llm ord s = s.
Proof. unfold terminal, step. by destruct (phase s). Qed.

Lemma steps_terminal n s : terminal s = true -> steps M llm ord n s = s.
Proof.
  intros H. induction n as [|n IH]; simpl; [done|].
  by rewrite (step_terminal _ H).
Qed.

(** A transition sends a request to the model only while fewer than [M]
    have been sent. *)
Lemma step_rounds_le s : rounds s <= M -> rounds (step M llm ord s) <= M.
Proof.
  intros H. unfold step, consume.
  destruct (phase s) as [|[|[t|c] rest] [|]|[|[t|c] rest] [|]|calls| |e];
    simpl; try done.
  destruct (decide (rounds s < M)); simpl; lia.
Qed.

Lemma steps_rounds_le n : forall s,
  rounds s <= M -> rounds (steps M llm ord n s) <= M.
Proof.
  induction n as [|n IH]; intros s H; simpl; [done|].
  by apply IH, step_rounds_le.
Qed.

(** An open stream is consumed to its end within the round: the loop
    completes, fails on the error marker, or goes on to execute the calls
    the model issued. *)
Lemma streaming_progress pending : forall ok s,
  phase s = ModelStreaming pending ok \/ phase s = EmittingText pending ok ->
  exists n,
    rounds (steps M llm ord n s) = rounds s
    /\ phase (steps M llm ord n s)
       = (if ok then
            match tool_calls pending with
            | [] => Done
            | calls => ExecutingTools calls
            end
          else Failed ModelStreamError)
    /\ (ok = false ->
        last (events (steps M llm ord n s)) = Some (Failure ModelStreamError)).
Proof.
  induction pending as [|[t|c] rest IH]; intros ok s Hphase.
  - exists 1. cbn [steps]. unfold step.
    destruct Hphase as [-> | ->], ok; simpl; repeat split; try done;
      intros _; apply last_snoc.
  - assert (Hstep : step M llm ord s
              = emit (EmittingText rest ok)
                  (append {| role := Model; content := Text t |} (conversation s))
                  [TextFragment t] s)
      by (unfold step; destruct Hphase as [-> | ->]; reflexivity).
    destruct (IH ok (step M llm ord s)) as (n & Hr & Hp & Hl).
    { right. by rewrite Hstep. }
    exists (S n). cbn [steps tool_calls].
    split; [by rewrite Hr, Hstep | split; [exact Hp | exact Hl]].
  - exists 1. cbn [steps tool_calls]. unfold step.
    destruct Hphase as [-> | ->], ok; simpl; repeat split; try done;
      intros _; apply last_snoc.
Qed.

(** From [AwaitingModel], the loop reaches a terminal phase. *)
Lemma awaiting_terminates k : forall s,
  phase s = AwaitingModel ->
  M <= rounds s + k ->
  exists n, terminal (steps M llm ord n s) = true.
Proof.
  induction k as [|k IH]; intros s Hphase Hk.
  - exists 1. cbn [steps]. unfold step, terminal. rewrite Hphase.
    destruct (decide (rounds s < M)); [lia | done].
  - destruct (decide (rounds s < M)) as [Hlt|Hge].
    + set (s1 := step M llm ord s).
      assert (Hs1 : phase s1 = ModelStreaming (fragments (llm (conversation s)))
                                 (completed (llm (conversation s)))
                    /\ rounds s1 = S (rounds s)).
      { unfold s1, step. rewrite Hphase.
        destruct (decide (rounds s < M)); [done | lia]. }
      destruct Hs1 as [Hp1 Hr1].
      destruct (streaming_progress _ _ s1 (or_introl Hp1)) as (n & Hr & Hp & _).
      set (s2 := steps M llm ord n s1) in *.
      destruct (completed (llm (conversation s))).
      * destruct (tool_calls (fragments (llm (conversation s)))) as [|c calls].
        -- exists (S n). cbn [steps]. fold s1. fold s2. unfold terminal. by rewrite Hp.
        -- destruct (IH (step M llm ord s2)) as (m & Hm).
           { unfold step. by rewrite Hp. }
           { unfold step. rewrite Hp. simpl. lia. }
           exists (S n + S m). rewrite steps_add. cbn [steps]. fold s1. by fold s2.
      * exists (S n). cbn [steps]. fold s1. fold s2. unfold terminal. by rewrite Hp.
    + exists 1. cbn [steps]. unfold step, terminal. rewrite Hphase.
      destruct (decide (rounds s < M)); [lia | done].
Qed.

(** With a model that keeps calling tools, every round leads back to
    [AwaitingModel], until the limit is reached and the loop fails. *)
Lemma awaiting_hits_limit k : forall s,
  keeps_calling llm ->
  phase s = AwaitingModel ->
  rounds s + k = M ->
  exists n,
    phase (steps M llm ord n s) = Failed LoopLimitExceeded
    /\ rounds (steps M llm ord n s) = M
    /\ last (events (steps M llm ord n s)) = Some (Failure LoopLimitExceeded).
Proof.
  intros s Hcalls. revert s. induction k as [|k IH]; intros s Hphase Hk.
  - exists 1. cbn [steps]. unfold step. rewrite Hphase.
    destruct (decide (rounds s < M)); [lia|]. simpl.
    repeat split; [lia | apply last_snoc].
  - set (s1 := step M llm ord s).
    assert (Hs1 : phase s1 = ModelStreaming (fragments (llm (conversation s)))
                               (completed (llm (conversation s)))
                  /\ rounds s1 = S (rounds s)).
    { unfold s1, step. rewrite Hphase.
      destruct (decide (rounds s < M)); [done | lia]. }
    destruct Hs1 as [Hp1 Hr1].
    destruct (streaming_progress _ _ s1 (or_introl Hp1)) as (n & Hr & Hp & _).
    set (s2 := steps M llm ord n s1) in *.
    destruct (Hcalls (conversation s)) as [Hok Hne]. rewrite Hok in Hp.
    destruct (tool_calls (fragments (llm (conversation s)))) as [|c calls]; [done|].
    destruct (IH (step M llm ord s2)) as (m & Hm).
    { unfold step. by rewrite Hp. }
    { unfold step. rewrite Hp. simpl. lia. }
    exists (S n + S m). rewrite steps_add. cbn [steps]. fold s1. by fold s2.
Qed.

End RoundLimit.

(** C4. For every query the loop sends at most [max_rounds] requests to
    the model and reaches a terminal phase, in which it stays.  With a model
    that requests another tool call in every round, the terminal phase is
    [Failed LoopLimitExceeded], reached after exactly [max_rounds] rounds
    and announced by a final failure event. *)
Theorem loop_stops_within_max_rounds
    (max_rounds : nat) (llm : AssistantLoop.Conversation -> AssistantLoop.ModelResponse)
    (completion_order : nat -> list AssistantLoop.ToolCallRequest -> list nat)
    (prompt : string) (registry : list AssistantLoop.ToolDefinition) (q : string) :
  let run n :=
    AssistantLoop.steps max_rounds llm completion_order n
      (AssistantLoop.start prompt registry q) in
  (forall n, AssistantLoop.rounds (run n) <= max_rounds)
  /\ (exists n,
        AssistantLoop.terminal (run n) = true /\ forall m, run (n + m) = run n)
  /\ (AssistantLoop.keeps_calling llm ->
      exists n,
        AssistantLoop.phase (run n) = AssistantLoop.Failed AssistantLoop.LoopLimitExceeded
        /\ AssistantLoop.rounds (run n) = max_rounds
        /\ last (AssistantLoop.events (run n))
           = Some (AssistantLoop.Failure AssistantLoop.LoopLimitExceeded)
        /\ forall m, run (n + m) = run n).
Proof.
  intros run. split; [|split].
  - intros n. apply steps_rounds_le. simpl. lia.
  - destruct (awaiting_terminates max_rounds llm completion_order max_rounds
                (AssistantLoop.start prompt registry q)) as (n & Hn);
      [done | simpl; lia |].
    exists n. split; [exact Hn|]. intros m. unfold run.
    by rewrite steps_add, steps_terminal.
  - intros Hcalls.
    destruct (awaiting_hits_limit max_rounds llm completion_order max_rounds
                (AssistantLoop.start prompt registry q) Hcalls) as (n & Hp & Hr & Hl);
      [done | simpl; lia |].
    exists n. repeat split; try done. intros m. unfold run.
    rewrite steps_add, steps_terminal; [done|].
    unfold AssistantLoop.terminal. by rewrite Hp.
Qed.

Lemma loop_stops_within_max_rounds_witness :
  exists n,
    AssistantLoop.phase
      (AssistantLoop.steps 2 insistent_llm last_first n
         (AssistantLoop.start "" sample_registry "dinner in Rome"))
    = AssistantLoop.Failed AssistantLoop.LoopLimitExceeded
    /\ AssistantLoop.rounds
         (AssistantLoop.steps 2 insistent_llm last_first n
            (AssistantLoop.start "" sample_registry "dinner in Rome")) = 2.
Proof.
  destruct (loop_stops_within_max_rounds 2 insistent_llm last_first
              "" sample_registry "dinner in Rome") as (_ & _ & H).
  destruct H as (n & Hp & Hr & _).
  - intros c. split; [reflexivity | discriminate].
  - exists n. split; [exact Hp | exact Hr].
Defined.

(** The same run, step by step: two rounds of four transitions each, then
    the refusal of a third request. *)
Example insistent_run_fails_at_ninth_step :
  AssistantLoop.phase
    (AssistantLoop.steps 2 insistent_llm last_first 8
       (AssistantLoop.start "" sample_registry "dinner in Rome"))
  = AssistantLoop.AwaitingModel
  /\ AssistantLoop.phase
       (AssistantLoop.steps 2 insistent_llm last_first 9
          (AssistantLoop.start "" sample_registry "dinner in Rome"))
     = AssistantLoop.Failed AssistantLoop.LoopLimitExceeded.
Proof. split; reflexivity. Qed.

(** * Further properties of the handlers *)

(** ** [/tourguide] *)

(** The floats that [not x] takes for missing are exactly the two zeros. *)
Lemma eqb_zero_iff (x : float) :
  PrimFloat.eqb x 0 = true <-> x = 0%float \/ x = (-0)%float.
Proof.
  split.
  - intros H. rewrite FloatAxioms.eqb_spec in H.
    rewrite <- (SF2Prim_Prim2SF x).
    destruct (Prim2SF x) as [[|]| [|] | |[|] m e]; try discriminate H.
    all: [> right; reflexivity | left; reflexivity ].
  - intros [-> | ->]; reflexivity.
Qed.

Lemma float_truthy_nonzero (x : float) :
  x <> 0%float -> x <> (-0)%float -> float_truthy x = true.
Proof.
  intros Hp Hn. unfold float_truthy.
  destruct (PrimFloat.eqb x 0) eqn:E; [|reflexivity].
  apply eqb_zero_iff in E as [E|E]; contradiction.
Qed.

(** X1. Coordinates that are neither +0.0 nor -0.0 (a NaN or an infinity
    included) are passed to [run_everywhere_tour_guide] as supplied, and the
    coordinates of the IP lookup are not consulted: the handler answers even
    when the lookup gave none. *)
Theorem tourguide_nonzero_coordinates_pass_through
    (request : TourGuideRequest) (geo : geocoder.ip) :
  lat request <> 0%float -> lat request <> (-0)%float ->
  lon request <> 0%float -> lon request <> (-0)%float ->
  exists location',
    query_everywhere_tourguide request (get_location geo)
      = inr (streaming_response
               (run_everywhere_tour_guide
                  (base_image request) (masked_image request) location'
                  (lat request) (lon request))
               "text/event-stream").
Proof.
  intros H1 H2 H3 H4. unfold query_everywhere_tourguide.
  rewrite (float_truthy_nonzero _ H1 H2), (float_truthy_nonzero _ H3 H4).
  simpl. by eexists.
Qed.

Lemma nan_not_zero : nan <> 0%float /\ nan <> (-0)%float.
Proof.
  split; intros H;
    assert (E : PrimFloat.is_nan nan = true) by reflexivity;
    rewrite H in E; discriminate E.
Qed.

Lemma infinity_not_zero : infinity <> 0%float /\ infinity <> (-0)%float.
Proof.
  split; intros H;
    assert (E : PrimFloat.is_infinity infinity = true) by reflexivity;
    rewrite H in E; discriminate E.
Qed.

Lemma tourguide_nonzero_coordinates_pass_through_witness :
  exists location',
    query_everywhere_tourguide odd_request (get_location no_location)
      = inr (streaming_response
               (run_everywhere_tour_guide "photo" "mask" location' nan infinity)
               "text/event-stream").
Proof.
  apply (tourguide_nonzero_coordinates_pass_through odd_request no_location);
    first [apply nan_not_zero | apply infinity_not_zero].
Defined.

(** X2. [/tourguide] fails exactly when a coordinate of the request is zero
    and the lookup does not start with a latitude and a longitude.  The
    exception is then a [TypeError] for a missing list or a missing number
    and an [IndexError] for a list that is too short, and the request ends
    as a server error that leaves the state of the process as it was. *)
Theorem tourguide_raises_iff
    (request : TourGuideRequest) (geo : geocoder.ip) (s : Server) :
  ((exists e, query_everywhere_tourguide request (get_location geo) = inl e)
   <-> (PrimFloat.eqb (lat request) 0 = true \/ PrimFloat.eqb (lon request) 0 = true)
       /\ forall la lo rest, geocoder.latlng geo <> Some (Some la :: Some lo :: rest))
  /\ (forall e,
        query_everywhere_tourguide request (get_location geo) = inl e ->
        handle (POST_tourguide request geo) s = (s, InternalServerError e)
        /\ e = match geocoder.latlng geo with
               | None => TypeError
               | Some [] => IndexError
               | Some (None :: _) => TypeError
               | Some [Some _] => IndexError
               | Some (Some _ :: None :: _) => TypeError
               | Some (Some _ :: Some _ :: _) => e
               end).
Proof.
  unfold handle. unfold query_everywhere_tourguide, float_truthy. simpl.
  rewrite !negb_involutive.
  destruct (PrimFloat.eqb (lat request) 0 || PrimFloat.eqb (lon request) 0) eqn:Hz.
  - assert (Hor : PrimFloat.eqb (lat request) 0 = true
                  \/ PrimFloat.eqb (lon request) 0 = true)
      by (by apply orb_true_iff).
    destruct (geocoder.latlng geo) as [[|[la|] [|[lo|] rest]]|]; simpl;
      (split; [split|]);
      try (intros _; split; [exact Hor | intros ? ? ?; discriminate]);
      try (intros _; by eexists);
      try (intros e [= <-]; by split);
      try (intros e [=]).
    + intros [e [=]].
    + intros [_ H]. by destruct (H la lo rest).
  - apply orb_false_iff in Hz as [Hlat Hlon]. simpl. split; [split|].
    + intros [e [=]].
    + intros [[H|H] _]; congruence.
    + intros e [=].
Qed.

Lemma tourguide_raises_iff_witness :
  handle (POST_tourguide unlocated_request city_only) (boot "" [])
    = (boot "" [], InternalServerError IndexError).
Proof.
  destruct (tourguide_raises_iff unlocated_request city_only (boot "" []))
    as [[_ Hraise] Hwhich].
  destruct Hraise as [e He].
  - split; [left; reflexivity | intros la lo rest; discriminate].
  - destruct (Hwhich e He) as [-> ->]. reflexivity.
Defined.

(** X3. Whenever [/tourguide] answers, the response has media type
    text/event-stream and status 200, and it streams
    [run_everywhere_tour_guide] applied to the two images of the request
    unchanged and, if the request names a place, to that place unchanged. *)
Theorem tourguide_passes_request_fields
    (request : TourGuideRequest) (loc : Location) (r : StreamingResponse) :
  query_everywhere_tourguide request loc = inr r ->
  media_type r = "text/event-stream"
  /\ status_code r = 200
  /\ exists location' lat' lon',
       content r = run_everywhere_tour_guide
                     (base_image request) (masked_image request) location' lat' lon'
       /\ (location request <> "" -> location' = location request).
Proof.
  unfold query_everywhere_tourguide. simpl.
  destruct (if negb (float_truthy (lat request)) || negb (float_truthy (lon request))
            then _ else _) as [e|[la lo]]; simpl; [discriminate|].
  intros [= <-]. repeat split. eexists _, _, _. split; [reflexivity|].
  intros Hl. unfold str_truthy. apply String.eqb_neq in Hl. by rewrite Hl.
Qed.

Lemma tourguide_passes_request_fields_witness :
  exists r,
    query_everywhere_tourguide odd_request (get_location seattle) = inr r
    /\ media_type r = "text/event-stream"
    /\ exists location' lat' lon',
         content r = run_everywhere_tour_guide "photo" "mask" location' lat' lon'
         /\ location' = "Rome".
Proof.
  eexists. split; [reflexivity|].
  destruct (tourguide_passes_request_fields odd_request (get_location seattle) _ eq_refl)
    as (Hm & _ & location' & lat' & lon' & Hc & Hl).
  split; [exact Hm|]. exists location', lat', lon'.
  split; [exact Hc | apply Hl; discriminate].
Defined.

(** ** [/query_assistant] *)

(** X4. The preferences in the prompt of a restaurant or place query are
    those stored when the request was handled: whatever is added between
    the return of the handler and the start of the response body, the
    system prompt installed by the body is the template filled with the
    list as it was then. *)
Theorem prompt_fixed_at_request_time
    (s : Server) (q : Query) (geo : geocoder.ip) (es : list Event) :
  query_type q = "restaurant" \/ query_type q = "place" ->
  exists g,
    handle (POST_query_assistant q geo) s
      = (s, Streaming (streaming_response (generate_response g) "text/plain"))
    /\ system (assistant (run (es ++ [Begin g]) s))
       = system_template (query_type q)
           (format_opt (geocoder.city geo) +:+ ", " +:+ format_opt (geocoder.country geo))
           (join ", " (user_preferences s))
           (if String.eqb (query_type q) "restaurant"
            then "recommended menu options, expected price to eat there & overall restaurant rating"
            else "recommended activities, expected costs & overall ratings")
           (if String.eqb (query_type q) "restaurant" then "eat" else "visit").
Proof.
  intros Hq. eexists. split; [reflexivity|].
  rewrite run_app. simpl.
  destruct Hq as [Hq|Hq].
  - erewrite begin_stream_configure; [|by apply setup_restaurant].
    simpl. by rewrite Hq.
  - erewrite begin_stream_configure; [|by apply setup_place].
    simpl. by rewrite Hq.
Qed.

Lemma prompt_fixed_at_request_time_witness :
  exists g,
    handle (POST_query_assistant restaurant_query seattle) (boot "" [])
      = (boot "" [], Streaming (streaming_response (generate_response g) "text/plain"))
    /\ system (assistant
                 (run ([Handle (POST_add_preference {| preference := "vegan" |})]
                       ++ [Begin g]) (boot "" [])))
       = system_template "restaurant" "Seattle, US" ""
           "recommended menu options, expected price to eat there & overall restaurant rating"
           "eat".
Proof.
  apply (prompt_fixed_at_request_time (boot "" []) restaurant_query seattle
           [Handle (POST_add_preference {| preference := "vegan" |})]).
  left. reflexivity.
Defined.

(** X5. What a query installs on the assistant, or the message it is
    refused with, depends on its [query_type] and, for a restaurant or a
    place, on the preference string and the location string.  The text of
    the query has no part in it, and for a trip or an unsupported type
    neither have the stored preferences nor the location. *)
Theorem setup_depends_on (g g' : GenerateResponse) :
  query_type (gr_query g) = query_type (gr_query g') ->
  query_type (gr_query g) = "trip"
  \/ supported (query_type (gr_query g)) = false
  \/ (gr_preferences_str g = gr_preferences_str g'
      /\ gr_location_str g = gr_location_str g') ->
  generate_response_setup g = generate_response_setup g'
  /\ forall a, begin_stream g a = begin_stream g' a.
Proof.
  intros Hqt Hrest.
  assert (H : generate_response_setup g = generate_response_setup g').
  { destruct Hrest as [Ht|[Hu|[Hp Hl]]].
    - rewrite (setup_trip g Ht). symmetry. apply setup_trip. congruence.
    - rewrite (setup_unsupported g Hu), (setup_unsupported g') by congruence.
      by rewrite Hqt.
    - unfold generate_response_setup. by rewrite Hqt, Hp, Hl. }
  split; [exact H|]. intros a. unfold begin_stream. by rewrite H.
Qed.

Lemma setup_depends_on_witness :
  generate_response_setup (closure_of trip_query ["vegan"] seattle)
  = generate_response_setup
      (closure_of {| query_type := "trip"; query := "Rome to Naples" |} [] no_location).
Proof.
  apply (setup_depends_on (closure_of trip_query ["vegan"] seattle)
           (closure_of {| query_type := "trip"; query := "Rome to Naples" |}
              [] no_location)).
  - reflexivity.
  - left. reflexivity.
Defined.

(** X6. The classification is exact and case-sensitive.  The message of the
    [else] branch is produced if and only if [query_type] is none of the
    three strings.  The tools SearchInternet, ReadWebsite, Geocode,
    GetDistanceMatrix, OptimizeRoute are installed only for 'trip', and
    SearchInternet, ReadWebsite, SearchForNearbyPlacesOfType only for
    'restaurant' and 'place': Geocode, GetDistanceMatrix and OptimizeRoute
    are never offered to a restaurant or place query, and
    SearchForNearbyPlacesOfType never to a trip. *)
Theorem classification_exact (g : GenerateResponse) :
  ((exists message, generate_response_setup g = Reject message)
   <-> query_type (gr_query g) <> "trip"
       /\ query_type (gr_query g) <> "restaurant"
       /\ query_type (gr_query g) <> "place")
  /\ (forall sys ts,
        generate_response_setup g = Configure sys ts ->
        (query_type (gr_query g) = "trip"
         /\ sys = system_trip
         /\ ts = [SearchInternet; ReadWebsite; Geocode; GetDistanceMatrix; OptimizeRoute]
         /\ (SearchForNearbyPlacesOfType ∉ ts))
        \/ ((query_type (gr_query g) = "restaurant" \/ query_type (gr_query g) = "place")
            /\ ts = [SearchInternet; ReadWebsite; SearchForNearbyPlacesOfType]
            /\ (Geocode ∉ ts)
            /\ (GetDistanceMatrix ∉ ts)
            /\ (OptimizeRoute ∉ ts))).
Proof.
  unfold generate_response_setup.
  destruct (String.eqb_spec (query_type (gr_query g)) "trip") as [Ht|Ht].
  { split.
    - split; [intros [m [=]] | intros [H _]; contradiction].
    - intros sys ts [= <- <-]. left. repeat split; [done | compute_done]. }
  destruct (String.eqb_spec (query_type (gr_query g)) "restaurant") as [Hr|Hr].
  { split.
    - split; [intros [m [=]] | intros (_ & H & _); contradiction].
    - intros sys ts [= _ <-]. right.
      split; [by left|]. repeat split; compute_done. }
  destruct (String.eqb_spec (query_type (gr_query g)) "place") as [Hp|Hp].
  { split.
    - split; [intros [m [=]] | intros (_ & _ & H); contradiction].
    - intros sys ts [= _ <-]. right.
      split; [by right|]. repeat split; compute_done. }
  simpl. split.
  - split; [done | intros _; by eexists].
  - intros sys ts [=].
Qed.

Lemma classification_exact_witness :
  (exists message,
     generate_response_setup
       (closure_of {| query_type := "Trip"; query := "Rome to Naples" |} [] seattle)
     = Reject message)
  /\ forall sys ts,
       generate_response_setup (closure_of restaurant_query [] seattle) = Configure sys ts ->
       ts = [SearchInternet; ReadWebsite; SearchForNearbyPlacesOfType]
       /\ (Geocode ∉ ts).
Proof.
  split.
  - apply (classification_exact
             (closure_of {| query_type := "Trip"; query := "Rome to Naples" |} [] seattle)).
    repeat split; discriminate.
  - intros sys ts H.
    destruct (classification_exact (closure_of restaurant_query [] seattle)) as [_ Hc].
    destruct (Hc sys ts H) as [[Ht _]|(_ & Hts & Hg & _)];
      [discriminate Ht | by split].
Defined.

Section TraceFacts.

Context {AIter : Type}.
Variable assistant_call : Assistant -> string -> AIter * Assistant.
Variable assistant_anext : AIter -> Assistant -> option (string * AIter) * Assistant.

Lemma gen_take_relaying_trace g n : forall it a,
  let '(chunks, es, st, _) :=
    gen_take assistant_call assistant_anext n g (Relaying it) a in
  es = relay_trace chunks ++ (if st is Closed then [Anext] else [])
  /\ (st = Closed \/ exists it', st = Relaying it' /\ length chunks = n).
Proof.
  induction n as [|n IH]; intros it a; simpl.
  - split; [done | right; by exists it].
  - unfold relay. destruct (assistant_anext it a) as [[[chunk it']|] a']; simpl.
    + specialize (IH it' a').
      destruct (gen_take assistant_call assistant_anext n g (Relaying it') a')
        as [[[cs es] st] a''].
      destruct IH as [-> Hst]. split; [done|].
      destruct Hst as [?|(it'' & ? & ?)]; [by left|].
      right. exists it''. split; [done | simpl; by f_equal].
    + split; [done | by left].
Qed.

(** X7. The body of a supported query does nothing but set up and relay:
    after the three set-up effects, each chunk is obtained by one advance of
    the assistant's iterator and yielded at once, before the next advance;
    one more advance happens only to learn that the iterator has ended.  So
    the assistant is never advanced ahead of what was delivered. *)
Theorem stream_trace g sys ts a n :
  generate_response_setup g = Configure sys ts ->
  let '(chunks, es, st, _) :=
    gen_take assistant_call assistant_anext (S n) g Created a in
  es = [SetSystem sys; DefineTools ts; CallAssistant (query (gr_query g))]
       ++ relay_trace chunks ++ (if st is Closed then [Anext] else [])
  /\ (st = Closed \/ length chunks = S n).
Proof.
  intros H. cbn [gen_take].
  rewrite (gen_next_created_configure _ _ _ _ _ _ H).
  destruct (assistant_call _ _) as [it a2]. unfold relay.
  destruct (assistant_anext it a2) as [[[chunk it']|] a']; simpl.
  - pose proof (gen_take_relaying_trace g n it' a') as IH.
    destruct (gen_take assistant_call assistant_anext n g (Relaying it') a')
      as [[[cs es] st] a''].
    destruct IH as [-> Hst]. split; [done|].
    destruct Hst as [?|(it'' & ? & ?)]; [by left|].
    right. simpl. by f_equal.
  - split; [done | by left].
Qed.

End TraceFacts.

Lemma stream_trace_witness :
  (gen_take (canned_call ["Day 1"; "Day 2"]) canned_anext 2
     (closure_of trip_query [] seattle) Created (assistant (boot "" []))).1.1.2
  = [SetSystem system_trip; DefineTools trip_tools;
     CallAssistant "Seattle to Portland by car";
     Anext; Yield "Day 1"; Anext; Yield "Day 2"].
Proof.
  pose proof (stream_trace (canned_call ["Day 1"; "Day 2"]) canned_anext
                (closure_of trip_query [] seattle) system_trip trip_tools
                (assistant (boot "" [])) 1 eq_refl) as H.
  destruct (gen_take _ _ _ _ _ _) as [[[chunks es] st] a'] eqn:E.
  destruct H as [-> _]. injection E as <- _ <- _. reflexivity.
Defined.

(** ** A failed lookup, the preference list *)

(** X8. A failed IP lookup is not an error for the prompts: [None] is
    written out by name.  With neither city nor country, a restaurant or
    place query is told to search in 'None, None', and a [/tourguide]
    request without a place but with non-zero coordinates is guided at
    'None, None'. *)
Theorem failed_lookup_is_named_none (geo : geocoder.ip) :
  geocoder.city geo = None ->
  geocoder.country geo = None ->
  (forall q preferences,
     query_type q = "restaurant" \/ query_type q = "place" ->
     exists g info action,
       content (query_assistant q preferences geo) = generate_response g
       /\ generate_response_setup g
          = Configure
              (system_template (query_type q) "None, None" (join ", " preferences)
                 info action)
              place_tools)
  /\ (forall request,
        location request = "" ->
        PrimFloat.eqb (lat request) 0 = false ->
        PrimFloat.eqb (lon request) 0 = false ->
        query_everywhere_tourguide request (get_location geo)
          = inr (streaming_response
                   (run_everywhere_tour_guide
                      (base_image request) (masked_image request) "None, None"
                      (lat request) (lon request))
                   "text/event-stream")).
Proof.
  intros Hc Hn. split.
  - intros q preferences Hq.
    destruct Hq as [Hq|Hq]; eexists _, _, _; (split; [reflexivity|]).
    + rewrite setup_restaurant by done. simpl. rewrite Hc, Hn, Hq. reflexivity.
    + rewrite setup_place by done. simpl. rewrite Hc, Hn, Hq. reflexivity.
  - intros request Hl Hlat Hlon. unfold query_everywhere_tourguide, float_truthy, str_truthy.
    simpl. by rewrite Hl, Hlat, Hlon, Hc, Hn.
Qed.

Lemma failed_lookup_is_named_none_witness :
  exists g info action,
    content (query_assistant restaurant_query ["vegan"] no_location) = generate_response g
    /\ generate_response_setup g
       = Configure (system_template "restaurant" "None, None" "vegan" info action)
           place_tools.
Proof.
  destruct (failed_lookup_is_named_none no_location eq_refl eq_refl) as [H _].
  apply (H restaurant_query ["vegan"]). left. reflexivity.
Defined.

(** X10. [/add_preference] is the only handler that changes the state of
    the process.  In particular the handler of [/query_assistant] does not
    configure the assistant: that happens when the response body is first
    resumed, and not at all if it never is. *)
Theorem only_add_preference_writes (r : Request) (s : Server) :
  (forall p, r <> POST_add_preference p) ->
  fst (handle r s) = s.
Proof.
  intros H. destruct r as [geo|p| |request geo|q geo|request]; simpl; try done.
  - by destruct (H p).
  - by destruct (query_everywhere_tourguide _ _).
Qed.

Lemma only_add_preference_writes_witness :
  fst (handle (POST_query_assistant trip_query seattle) (boot "" [])) = boot "" [].
Proof.
  apply (only_add_preference_writes (POST_query_assistant trip_query seattle) (boot "" [])).
  discriminate.
Defined.

(** X11. The preference list only grows: whatever happens, the list held
    before is a prefix of the list held after, and the list is longer by
    the number of [/add_preference] calls, so that nothing is removed,
    reordered or merged, not even an entry added twice. *)
Theorem preferences_only_grow (es : list Event) (s : Server) :
  user_preferences s `prefix_of` user_preferences (run es s)
  /\ length (user_preferences (run es s)) = length (user_preferences s) + additions es.
Proof.
  rewrite run_user_preferences. split.
  - by apply prefix_app_r.
  - by rewrite length_app.
Qed.

Lemma string_app_assoc (x y z : string) : (x +:+ y) +:+ z = x +:+ (y +:+ z).
Proof.
  induction x as [|c x IH]; [reflexivity|].
  change (String c ((x +:+ y) +:+ z) = String c (x +:+ (y +:+ z))). by f_equal.
Qed.

Lemma join_not_delimited (sep a b : string) (rest : list string) :
  join sep ((a +:+ sep +:+ b) :: rest) = join sep (a :: b :: rest).
Proof.
  unfold join. destruct rest as [|r rest]; [reflexivity|].
  change (((a +:+ sep +:+ b) +:+ sep +:+ String.concat sep (r :: rest))
          = a +:+ sep +:+ b +:+ sep +:+ String.concat sep (r :: rest)).
  by rewrite !string_app_assoc.
Qed.

(** X12. The preferences reach the prompt joined by ', ' without any
    quoting, so the list cannot be read back from it: a preference that
    contains ', ' gives the same response as the two preferences it splits
    into, and a single empty preference the same as no preference. *)
Theorem preferences_not_delimited
    (q : Query) (a b : string) (rest : list string) (geo : geocoder.ip) :
  query_assistant q ((a +:+ ", " +:+ b) :: rest) geo = query_assistant q (a :: b :: rest) geo
  /\ query_assistant q [""] geo = query_assistant q [] geo.
Proof.
  unfold query_assistant. by rewrite join_not_delimited.
Qed.
